(** * TRACS assembler ([assembler.c]): shallow embedding and properties

    The development follows the C source function by function:
    [get_opcode], [set_address] and the five phases of [assemble]
    (label table, EOP check, the two validation loops, the encoding
    loop).  C strings are [string]; [unsigned int] values are [Z]
    reduced modulo [2^32]; the [for] loops over [lines[1..line_count-1]]
    are folds over [skipn 1 lines] that thread the loop-carried
    variables explicitly.  What the program prints on the console and
    what it writes to [translation.txt] are kept as two separate lists
    of records, one record per [printf]/[fprintf] group.  The result
    of [process_file] and the opening of the output file are inputs of
    [assemble]: the array of lines, or [NULL], what the operand buffers
    hold behind the operands (the bytes that [operand + 2] points to
    when an operand has fewer than two characters), and whether [fopen]
    succeeds; [process_file] itself is modelled after [assemble], on
    the strings that [fgets] returns.  The bounds [MAX_LINES] and
    [MAX_LINE_LENGTH] of [assembler.h] are not modelled: programs are
    taken to fit the arrays. *)

From Stdlib Require Import ZArith List String Ascii Bool Lia.
From Stdlib Require DecimalString HexadecimalString.
Import ListNotations.

Open Scope string_scope.
Open Scope list_scope.
Open Scope Z_scope.

(** ** The C library functions used by the assembler *)

Module CLib.

(** [isspace] in the C locale. *)
Definition isspace (c : ascii) : bool :=
  let n := N_of_ascii c in
  (n =? 32)%N || ((9 <=? n)%N && (n <=? 13)%N).

(** [isdigit]: the ten decimal digits only. *)
Definition isdigit (c : ascii) : bool :=
  let n := N_of_ascii c in
  (48 <=? n)%N && (n <=? 57)%N.

(** Value of a character as a digit in bases up to 36, as [strtol]
    reads it. *)
Definition digit_val (c : ascii) : option Z :=
  let n := Z.of_N (N_of_ascii c) in
  if (48 <=? n) && (n <=? 57) then Some (n - 48)
  else if (97 <=? n) && (n <=? 122) then Some (n - 97 + 10)
  else if (65 <=? n) && (n <=? 90) then Some (n - 65 + 10)
  else None.

(** [strncmp(s, p, strlen p) == 0]. *)
Fixpoint has_prefix (p s : string) : bool :=
  match p, s with
  | EmptyString, _ => true
  | String a p', String b s' => Ascii.eqb a b && has_prefix p' s'
  | String _ _, EmptyString => false
  end.

(** [s + n] on a buffer that holds the C string [s].  When [s] has
    fewer than [n] characters the pointer lies behind the terminator,
    on bytes that earlier writes to the buffer left there: [behind] is
    the C string that starts at offset [n] of the buffer in that case.
    With [n] characters or more the result lies inside [s] and [behind]
    is not looked at. *)
Fixpoint advance (n : nat) (s behind : string) : string :=
  match n, s with
  | O, _ => s
  | S n', String _ s' => advance n' s' behind
  | S _, EmptyString => behind
  end.

Fixpoint skip_space (s : string) : string :=
  match s with
  | String c s' => if isspace c then skip_space s' else s
  | EmptyString => s
  end.

(** Optional sign: [(negative, rest)]. *)
Definition take_sign (s : string) : bool * string :=
  match s with
  | String "-" s' => (true, s')
  | String "+" s' => (false, s')
  | _ => (false, s)
  end.

(** Longest run of digits valid in [base], accumulated from [acc]. *)
Fixpoint digits (base : Z) (s : string) (acc : Z) : Z :=
  match s with
  | String c s' =>
      match digit_val c with
      | Some d => if d <? base then digits base s' (acc * base + d) else acc
      | None => acc
      end
  | EmptyString => acc
  end.

Definition hex_prefixed (s : string) : bool :=
  has_prefix "0x" s || has_prefix "0X" s.

(** LP64: [long] and [unsigned long] are 64 bits wide. *)
Definition ULONG_MAX : Z := 2 ^ 64 - 1.
Definition LONG_MAX : Z := 2 ^ 63 - 1.
Definition LONG_MIN : Z := - 2 ^ 63.

(** [strtoul(s, NULL, 16)].  The prefix is stepped over only when its
    two characters are there. *)
Definition strtoul16 (s : string) : Z :=
  let '(neg, s1) := take_sign (skip_space s) in
  let s2 := if hex_prefixed s1 then advance 2 s1 "" else s1 in
  let v := digits 16 s2 0 in
  if ULONG_MAX <? v then ULONG_MAX
  else if neg then (- v) mod 2 ^ 64 else v.

(** [strtol(s, NULL, 0)]: the base is taken from the prefix, [0x] for
    sixteen, a leading [0] for eight, ten otherwise. *)
Definition strtol0 (s : string) : Z :=
  let '(neg, s1) := take_sign (skip_space s) in
  let v :=
    if hex_prefixed s1 then digits 16 (advance 2 s1 "") 0
    else if has_prefix "0" s1 then digits 8 s1 0
    else digits 10 s1 0 in
  let v := if neg then - v else v in
  if LONG_MAX <? v then LONG_MAX
  else if v <? LONG_MIN then LONG_MIN else v.

(** Conversion to [unsigned int], and [unsigned int] arithmetic. *)
Definition uint (z : Z) : Z := z mod 2 ^ 32.

End CLib.

Import CLib.

(** [strcmp(a, b) == 0]. *)
Notation "a == b" := (String.eqb a b) (at level 70, no associativity).

(** ** Data ([assembler.h]) *)

(** One tokenised source line, as [process_file] leaves it. *)
Record LINE : Type := mkLINE
  { label : string; operation : string; operand : string }.

(** An entry of the [labels] array of [assemble]. *)
Record LABEL : Type := mkLABEL
  { lname : string; address : Z }.

(** Result of the instruction-table lookup. *)
Record OPOBJ : Type := mkOPOBJ
  { opcode : Z; addBoolean : bool }.

(** ** [get_opcode] *)

(** The source leaves [addBoolean] unset on the not-found path; no
    caller reads it when [opcode] is [-1].  It is [false] here. *)
Definition get_opcode (instruction : string) : OPOBJ :=
  if instruction == "WB" then mkOPOBJ 0x30 false
  else if instruction == "WM" then mkOPOBJ 0x08 true
  else if instruction == "RM" then mkOPOBJ 0x10 true
  else if instruction == "WACC" then mkOPOBJ 0x48 false
  else if instruction == "WIB" then mkOPOBJ 0x38 false
  else if instruction == "WIO" then mkOPOBJ 0x28 true
  else if instruction == "RACC" then mkOPOBJ 0x58 false
  else if instruction == "ADD" then mkOPOBJ 0xF0 false
  else if instruction == "SUB" then mkOPOBJ 0xE8 false
  else if instruction == "MUL" then mkOPOBJ 0xD8 false
  else if instruction == "AND" then mkOPOBJ 0xD0 false
  else if instruction == "OR" then mkOPOBJ 0xC8 false
  else if instruction == "NOT" then mkOPOBJ 0xC0 false
  else if instruction == "XOR" then mkOPOBJ 0xB8 false
  else if instruction == "SHL" then mkOPOBJ 0xB0 false
  else if instruction == "SHR" then mkOPOBJ 0xA8 false
  else if instruction == "BR" then mkOPOBJ 0x18 true
  else if instruction == "BRE" then mkOPOBJ 0xA0 true
  else if instruction == "BRNE" then mkOPOBJ 0x98 true
  else if instruction == "BRGT" then mkOPOBJ 0x90 true
  else if instruction == "BRLT" then mkOPOBJ 0x88 true
  else if instruction == "EOP" then mkOPOBJ 0xF8 false
  else if instruction == "SWAP" then mkOPOBJ 0x70 false
  else mkOPOBJ (-1) false.

(** The test on the five branch mnemonics that [assemble] spells out
    twice (validation and encoding). *)
Definition is_branch (op : string) : bool :=
  (op == "BR") || (op == "BRE") || (op == "BRNE") || (op == "BRGT")
  || (op == "BRLT").

(** ** [set_address] *)

(** The loop runs over every line from index 0 and returns at the first
    one whose label field is ["ORG"]; [None] is the fall-through of the
    loop, where [*address] is set to [0x000]. *)
Fixpoint set_address_loop (lines : list LINE) : option Z :=
  match lines with
  | [] => None
  | l :: rest =>
      if label l == "ORG" then Some (uint (strtol0 (operation l)))
      else set_address_loop rest
  end.

Definition set_address (lines : list LINE) : Z :=
  match set_address_loop lines with
  | Some a => a
  | None => 0x000
  end.

(** ** [assemble] *)

(** Console output, one constructor per [printf] format. *)
Inductive message : Type :=
| ErrorReadingLines                       (* "Error reading lines" *)
| LineDump (l : LINE)                     (* "Label: %s, Operation: %s, Operand: %s" *)
| NoEOPFound                              (* "Error: No EOP found" *)
| UnknownLabel (operand : string)         (* "Error: Unknown Label: %s" *)
| InvalidInstruction (text : string)      (* "Invalid instruction: %s" *)
| InvalidOperand (operation : string)     (* "Error: Invalid operand for instruction: %s" *)
| ErrorOpeningOutput.                     (* "Error opening output file" *)

(** What follows the tab on a line of [translation.txt] whose opcode
    has [addBoolean = false]. *)
Inductive second_half : Type :=
| SecondValue (addr1 value : Z)           (* "0x%02x 0x%02x\n" *)
| SecondZero (addr1 : Z)                  (* "0x%02x 0x00\n" *)
| SecondText (addr1 : Z) (text : string)  (* "0x%02x %s\n" *)
| SecondUnknown (operand operation : string).
                                          (* "Unknown Label: %s Writing opcode %s\n" *)

(** One line of [translation.txt]. *)
Inductive out_line : Type :=
| OutWord (addr first addr1 second : Z)   (* "0x%02x 0x%02x\t0x%02x 0x%02x\n" *)
| OutSplit (addr opc : Z) (rest : second_half).
                                          (* "0x%02x 0x%02x\t" and a second half *)

(** The scan [for (j = 0; j < label_count; j++) if (strcmp(..) == 0)
    { ...; break; }] that occurs four times: the address of the first
    entry with that name. *)
Fixpoint find_label (name : string) (labels : list LABEL) : option Z :=
  match labels with
  | [] => None
  | lb :: rest =>
      if name == lname lb then Some (address lb) else find_label name rest
  end.

Definition labelFound (name : string) (labels : list LABEL) : bool :=
  match find_label name labels with Some _ => true | None => false end.

(** [s[0] != 0]. *)
Definition nonempty (s : string) : bool :=
  match s with EmptyString => false | String _ _ => true end.

(** [operand[0] != 0 && strncmp(operand, "0x", 2) != 0]. *)
Definition symbolic (operand : string) : bool :=
  nonempty operand && negb (has_prefix "0x" operand).

(** *** Step 3: label table and EOP flag *)

Record pass1_state : Type := mkPass1
  { hasEOP : bool; labels : list LABEL; temp_address : Z }.

(** [strcmp(label, "EOP") == 0 || strcmp(operation, "EOP") == 0]. *)
Definition eop_line (l : LINE) : bool :=
  (label l == "EOP") || (operation l == "EOP").

Definition pass1_step (st : pass1_state) (l : LINE) : pass1_state :=
  {| hasEOP := if eop_line l then true else hasEOP st;
     labels :=
       if nonempty (label l)
       then labels st ++ [mkLABEL (label l) (temp_address st)]
       else labels st;
     temp_address := uint (temp_address st + 2) |}.

Definition pass1 (address : Z) (lines : list LINE) : pass1_state :=
  fold_left pass1_step (skipn 1 lines) (mkPass1 false [] address).

(** *** Step 4: operands that are neither literals nor labels *)

Definition check_labels_step (labels : list LABEL)
    (st : bool * list message) (l : LINE) : bool * list message :=
  if symbolic (operand l) then
    if labelFound (operand l) labels then st
    else (true, snd st ++ [UnknownLabel (operand l)])
  else st.

Definition check_labels (labels : list LABEL) (lines : list LINE)
  : bool * list message :=
  fold_left (check_labels_step labels) (skipn 1 lines) (false, []).

(** *** Second validation loop: mnemonics and label operands *)

Definition check_operations_step (labels : list LABEL)
    (st : bool * list message) (l : LINE) : bool * list message :=
  let op := get_opcode (operation l) in
  let st1 :=
    if opcode op =? -1
    then (true, snd st ++ [InvalidInstruction (label l)])
    else st in
  if negb (is_branch (operation l)) then
    if symbolic (operand l) then
      if labelFound (operand l) labels
      then (true, snd st1 ++ [InvalidOperand (operation l)])
      else st1
    else st1
  else st1.

Definition check_operations (labels : list LABEL) (lines : list LINE)
  : bool * list message :=
  fold_left (check_operations_step labels) (skipn 1 lines) (false, []).

(** *** Encoding loop *)

(** Conversion of the [unsigned long] result of [|] to [int concat]. *)
Definition to_int (z : Z) : Z := (z + 2 ^ 31) mod 2 ^ 32 - 2 ^ 31.

(** The [while] loop over [operand[k]] from [k = 2]: the part of the
    text left at the first character that is not a decimal digit. *)
Fixpoint skip_digits (s : string) : string :=
  match s with
  | String c s' => if isdigit c then skip_digits s' else s
  | EmptyString => s
  end.

(** The [if (flag)] block.  The scan from [operand[2]] runs only behind
    the test that [operand] begins with ["0x"]. *)
Definition encode_second (labels : list LABEL) (address : Z) (l : LINE)
  : second_half :=
  match find_label (operand l) labels with
  | Some a => SecondValue (uint (address + 1)) a
  | None =>
      if negb (nonempty (operand l)) then SecondZero (uint (address + 1))
      else if has_prefix "0x" (operand l)
              && negb (nonempty (skip_digits (advance 2 (operand l) "")))
      then SecondText (uint (address + 1)) (operand l)
      else SecondUnknown (operand l) (operation l)
  end.

(** Body of the loop for a line whose opcode was found; [None] when
    nothing is written for the line.  [strtoul] is called on
    [operand + 2] whatever the operand is: for an operand of fewer than
    two characters it reads [behind], the C string that the buffer of
    the operand holds from offset 2 on. *)
Definition encode_line (labels : list LABEL) (behind : string) (address : Z)
    (l : LINE) : option out_line :=
  let op := get_opcode (operation l) in
  if addBoolean op then
    let shifted := Z.shiftl (opcode op) 8 in
    let operand_int := strtoul16 (advance 2 (operand l) behind) in
    let concat := to_int (Z.lor shifted operand_int) in
    let first := Z.land (Z.shiftr concat 8) 0xFF in
    let second := Z.land concat 0xFF in
    if is_branch (operation l) then
      match find_label (operand l) labels with
      | Some a => Some (OutWord address first (uint (address + 1)) a)
      | None => None
      end
    else Some (OutWord address first (uint (address + 1)) second)
  else Some (OutSplit address (opcode op) (encode_second labels address l)).

(** [index] is the loop counter [i]; [behind i] is the C string that
    the buffer [lines[i].operand] holds from offset 2 on. *)
Record pass2_state : Type := mkPass2
  { index : nat; cur_address : Z; console : list message;
    written : list out_line }.

Definition pass2_step (labels : list LABEL) (behind : nat -> string)
    (st : pass2_state) (l : LINE) : pass2_state :=
  if opcode (get_opcode (operation l)) =? -1 then
    (* [continue]: the address is not advanced *)
    mkPass2 (S (index st))
            (cur_address st)
            (console st ++ [InvalidInstruction (operation l)])
            (written st)
  else
    mkPass2 (S (index st))
            (uint (cur_address st + 2))
            (console st)
            (match encode_line labels (behind (index st)) (cur_address st) l
             with
             | Some o => written st ++ [o]
             | None => written st
             end).

Definition pass2 (labels : list LABEL) (behind : nat -> string)
    (address : Z) (lines : list LINE) : pass2_state :=
  fold_left (pass2_step labels behind) (skipn 1 lines)
            (mkPass2 1 address [] []).

(** *** The whole function *)

(** [status] is the returned [int]; [stdout] what was printed; [file]
    is [None] when [translation.txt] was never opened for writing and
    otherwise the lines written to it. *)
Record outcome : Type := mkOutcome
  { status : Z; stdout : list message; file : option (list out_line) }.

(** [source] is what [process_file] returns ([None] for [NULL]), as C
    strings; [behind i] is the C string that the buffer
    [lines[i].operand] holds from offset 2 on, which the encoding loop
    reads when the operand has fewer than two characters; [writable]
    tells whether [fopen("translation.txt", "w")] succeeds. *)
Definition assemble (source : option (list LINE)) (behind : nat -> string)
    (writable : bool) : outcome :=
  match source with
  | None => mkOutcome 0 [ErrorReadingLines] None
  | Some lines =>
      let dump := map LineDump lines in
      let address := set_address lines in
      let p1 := pass1 address lines in
      if negb (hasEOP p1) then mkOutcome 0 (dump ++ [NoEOPFound]) None
      else
        let '(hasInvalidLabel, out4) := check_labels (labels p1) lines in
        if hasInvalidLabel then mkOutcome 0 (dump ++ out4) None
        else
          let '(hasInvalidOperation, out5) :=
            check_operations (labels p1) lines in
          if hasInvalidOperation
          then mkOutcome 0 (dump ++ out4 ++ out5) None
          else if negb writable
          then mkOutcome 0 (dump ++ out4 ++ out5 ++ [ErrorOpeningOutput]) None
          else
            let p2 := pass2 (labels p1) behind address lines in
            mkOutcome 1 (dump ++ out4 ++ out5 ++ console p2)
                      (Some (written p2))
  end.

(** The program of the specification's end-to-end example. *)
Definition example_program : list LINE :=
  [ mkLINE "ORG" "0x000" "";
    mkLINE "START" "WB" "0x05";
    mkLINE "" "BR" "END";
    mkLINE "END" "EOP" "" ].

(** ** Closed forms of the loops

    Each loop of [assemble] is a left fold with an accumulator.  The
    functions below describe, line by line, what a loop contributes;
    the lemmas after them show that the folds compute exactly that. *)

(** Entries added to the label table by lines starting at address [a]. *)
Fixpoint label_table (a : Z) (ls : list LINE) : list LABEL :=
  match ls with
  | [] => []
  | l :: rest =>
      (if nonempty (label l) then [mkLABEL (label l) a] else [])
      ++ label_table (uint (a + 2)) rest
  end.

(** Names declared by the lines after line 0. *)
Definition declared (lines : list LINE) : list string :=
  filter nonempty (map label (skipn 1 lines)).

Definition known (lines : list LINE) (name : string) : bool :=
  existsb (String.eqb name) (declared lines).

(** Messages of the first validation loop for one line; [found] tells
    whether a name is in the label table. *)
Definition label_errors (found : string -> bool) (l : LINE) : list message :=
  if symbolic (operand l) && negb (found (operand l))
  then [UnknownLabel (operand l)] else [].

(** Messages of the second validation loop for one line. *)
Definition operation_errors (found : string -> bool) (l : LINE)
  : list message :=
  (if opcode (get_opcode (operation l)) =? -1
   then [InvalidInstruction (label l)] else [])
  ++ (if negb (is_branch (operation l)) && symbolic (operand l)
         && found (operand l)
      then [InvalidOperand (operation l)] else []).

(** Lines written by the encoding loop for lines with known mnemonics,
    starting at index [i] and address [a]. *)
Fixpoint emitted (labels : list LABEL) (behind : nat -> string) (i : nat)
    (a : Z) (ls : list LINE) : list out_line :=
  match ls with
  | [] => []
  | l :: rest =>
      match encode_line labels (behind i) a l with
      | Some o => [o]
      | None => []
      end ++ emitted labels behind (S i) (uint (a + 2)) rest
  end.

(** The address printed first on an output line. *)
Definition out_addr (o : out_line) : Z :=
  match o with
  | OutWord a _ _ _ => a
  | OutSplit a _ _ => a
  end.

Definition is_nil {A : Type} (l : list A) : bool :=
  match l with [] => true | _ :: _ => false end.

(** ** Definitions in the words of the specification

    Used to state what the specification says where it differs from
    the code, and to name classes of inputs. *)

Definition encoded_operand_mnemonics : list string :=
  ["WM"; "RM"; "WIO"; "BR"; "BRE"; "BRNE"; "BRGT"; "BRLT"].

Definition plain_mnemonics : list string :=
  ["WB"; "WACC"; "WIB"; "RACC"; "ADD"; "SUB"; "MUL"; "AND"; "OR"; "NOT";
   "XOR"; "SHL"; "SHR"; "EOP"; "SWAP"].

(** The base address in the words of the specification: taken from
    line 0 when its label field is ORG, read as a [0x]-prefixed
    hexadecimal or else a decimal number, and 0 otherwise. *)
Definition spec_numeric (s : string) : Z :=
  if has_prefix "0x" s then digits 16 (advance 2 s "") 0 else digits 10 s 0.

Definition spec_base (lines : list LINE) : Z :=
  match lines with
  | l0 :: _ => if label l0 == "ORG" then spec_numeric (operation l0) else 0
  | [] => 0
  end.

(** Instruction lines as the specification counts them: every line,
    less line 0 when it is an ORG line. *)
Definition instruction_lines (lines : list LINE) : list LINE :=
  match lines with
  | l0 :: rest => if label l0 == "ORG" then rest else lines
  | [] => []
  end.

(** The text of a well-formed hexadecimal literal in the words of the
    specification: the prefix [0x] followed only by hexadecimal digits. *)
Definition is_xdigit (c : ascii) : bool :=
  match digit_val c with Some d => d <? 16 | None => false end.

Fixpoint all_xdigits (s : string) : bool :=
  match s with
  | String c s' => is_xdigit c && all_xdigits s'
  | EmptyString => true
  end.

Definition hex_literal (s : string) : bool :=
  has_prefix "0x" s && all_xdigits (advance 2 s "").

(** An operand that the first validation loop rejects: non-empty, not
    beginning with [0x], and not a declared label. *)
Definition unknown_operand (lines : list LINE) (l : LINE) : bool :=
  nonempty (operand l) && negb (has_prefix "0x" (operand l))
  && negb (known lines (operand l)).

(** ** Test programs *)

(** An origin directive that is not the first line. *)
Definition late_org_program : list LINE :=
  [ mkLINE "" "WB" "0x05";
    mkLINE "ORG" "0x10" "";
    mkLINE "" "EOP" "" ].

Definition no_org_program : list LINE :=
  [ mkLINE "START" "WB" "0x05";
    mkLINE "" "EOP" "" ].

Definition only_eop_program : list LINE := [ mkLINE "" "EOP" "" ].

Definition bad_literal_program : list LINE :=
  [ mkLINE "ORG" "0x000" "";
    mkLINE "" "WB" "0x0G";
    mkLINE "" "EOP" "" ].

Definition unknown_label_program : list LINE :=
  [ mkLINE "ORG" "0x000" "";
    mkLINE "" "BR" "NOWHERE";
    mkLINE "" "WB" "ELSEWHERE";
    mkLINE "" "EOP" "" ].

Definition two_errors_program : list LINE :=
  [ mkLINE "ORG" "0x000" "";
    mkLINE "L" "FOO" "NOWHERE";
    mkLINE "" "EOP" "" ].

Definition invalid_operation_program : list LINE :=
  [ mkLINE "ORG" "0x000" "";
    mkLINE "L" "FOO" "0x01";
    mkLINE "" "ADD" "L";
    mkLINE "" "EOP" "" ].

Definition hex_named_label_program : list LINE :=
  [ mkLINE "ORG" "0x000" "";
    mkLINE "0x10" "WB" "0x05";
    mkLINE "" "ADD" "0x10";
    mkLINE "" "EOP" "" ].

Definition label_operand_and_unknown_program : list LINE :=
  [ mkLINE "ORG" "0x000" "";
    mkLINE "myLabel" "WB" "0x05";
    mkLINE "" "ADD" "myLabel";
    mkLINE "" "WB" "NOWHERE";
    mkLINE "" "EOP" "" ].

Definition add_label_program : list LINE :=
  [ mkLINE "ORG" "0x000" "";
    mkLINE "myLabel" "WB" "0x05";
    mkLINE "" "ADD" "myLabel";
    mkLINE "" "EOP" "" ].



Definition hex_letter_program : list LINE :=
  [ mkLINE "ORG" "0x000" "";
    mkLINE "" "WB" "0x0A";
    mkLINE "" "EOP" "" ].

(** ** [process_file]

    The file is given by the strings that the successive calls of
    [fgets] return ([None] when [fopen] fails); [malloc] may fail; the
    array it returns is not initialised, so [init n] stands for what
    [lines[n]] holds, read as three C strings, before [sscanf] writes
    to it. *)

(** Console output of [process_file]. *)
Inductive pf_message : Type :=
| ErrorOpeningFile (filename : string)    (* "Error opening file %s" *)
| MemoryAllocationFailed.                 (* "Memory allocation failed" *)

(** [strchr(LINE, ';')] and [*comment = 0]. *)
Fixpoint strip_comment (s : string) : string :=
  match s with
  | String c s' => if (c =? ";")%char then "" else String c (strip_comment s')
  | EmptyString => ""
  end.

(** The loop that moves [start] over leading spaces and tabs. *)
Fixpoint skip_blanks (s : string) : string :=
  match s with
  | String c s' =>
      if (c =? " ")%char || (c =? "009")%char then skip_blanks s' else s
  | EmptyString => s
  end.

(** The characters that [end] steps back over: space, tab, line feed,
    carriage return. *)
Definition trailing (c : ascii) : bool :=
  (c =? " ")%char || (c =? "009")%char || (c =? "010")%char
  || (c =? "013")%char.

Fixpoint drop_trailing (s : string) : string :=
  match s with
  | String c s' =>
      let r := drop_trailing s' in
      if trailing c && negb (nonempty r) then "" else String c r
  | EmptyString => ""
  end.

(** [end] never goes below [start]: the first character stays. *)
Definition trim_end (start : string) : string :=
  match start with
  | String c rest => String c (drop_trailing rest)
  | EmptyString => ""
  end.

(** The text handed to [sscanf]. *)
Definition clean (chunk : string) : string :=
  trim_end (skip_blanks (strip_comment chunk)).

(** One [%s]: the longest run without white space, and the rest. *)
Fixpoint read_token (s : string) : string * string :=
  match s with
  | String c s' =>
      if isspace c then ("", s)
      else let '(t, r) := read_token s' in (String c t, r)
  | EmptyString => ("", "")
  end.

(** [sscanf(start, "%s %s %s", label, operation, operand)] on an array
    element that holds [old]: a field without token keeps what it had. *)
Definition sscanf3 (s : string) (old : LINE) : LINE :=
  let s1 := skip_space s in
  if negb (nonempty s1) then old
  else
    let '(t1, r1) := read_token s1 in
    let s2 := skip_space r1 in
    if negb (nonempty s2) then mkLINE t1 (operation old) (operand old)
    else
      let '(t2, r2) := read_token s2 in
      let s3 := skip_space r2 in
      if negb (nonempty s3) then mkLINE t1 t2 (operand old)
      else mkLINE t1 t2 (fst (read_token s3)).

(** The [while (fgets(...))] loop; [line_count] is the index of the next
    free element. *)
Fixpoint read_loop (init : nat -> LINE) (chunks : list string)
    (line_count : nat) : list LINE :=
  match chunks with
  | [] => []
  | chunk :: rest =>
      let start := clean chunk in
      if negb (nonempty start) then read_loop init rest line_count
      else sscanf3 start (init line_count)
           :: read_loop init rest (S line_count)
  end.

(** The 23 comparisons of the format correction, in source order. *)
Definition is_mnemonic_label (s : string) : bool :=
  (s == "WM") || (s == "RM") || (s == "WACC") || (s == "WIB")
  || (s == "WIO") || (s == "RACC") || (s == "ADD") || (s == "SUB")
  || (s == "MUL") || (s == "AND") || (s == "OR") || (s == "NOT")
  || (s == "XOR") || (s == "SHL") || (s == "SHR") || (s == "BR")
  || (s == "BRE") || (s == "BRNE") || (s == "BRGT") || (s == "BRLT")
  || (s == "EOP") || (s == "SWAP") || (s == "WB").

(** Body of the format correction loop: everything moves one field to
    the right. *)
Definition format_correction (l : LINE) : LINE :=
  if nonempty (label l) && is_mnemonic_label (label l)
  then mkLINE "" (label l) (operation l)
  else l.

(** [label[0] != 0 || operation[0] != 0 || operand[0] != 0]. *)
Definition has_field (l : LINE) : bool :=
  nonempty (label l) || nonempty (operation l) || nonempty (operand l).

(** [arr[index] = x]. *)
Fixpoint store (index : nat) (x : LINE) (arr : list LINE) : list LINE :=
  match arr, index with
  | [], _ => []
  | _ :: t, O => x :: t
  | h :: t, S n => h :: store n x t
  end.

(** The loop that removes the lines without any field, in place:
    [steps] iterations are left, [i] is the loop counter; the result is
    [index] and the array. *)
Fixpoint compact_loop (steps i index : nat) (arr : list LINE)
  : nat * list LINE :=
  match steps with
  | O => (index, arr)
  | S steps' =>
      let li := nth i arr (mkLINE "" "" "") in
      if has_field li then
        compact_loop steps' (S i) (S index)
                     (if (i =? index)%nat then arr else store index li arr)
      else compact_loop steps' (S i) index arr
  end.

(** The elements below the final [*line_count]. *)
Definition compact (arr : list LINE) : list LINE :=
  let '(index, arr') := compact_loop (List.length arr) 0 0 arr in
  firstn index arr'.

Definition process_file (file : option (list string)) (malloc_ok : bool)
    (init : nat -> LINE) (filename : string)
  : option (list LINE) * list pf_message :=
  match file with
  | None => (None, [ErrorOpeningFile filename])
  | Some chunks =>
      if negb malloc_ok then (None, [MemoryAllocationFailed])
      else (Some (compact (map format_correction (read_loop init chunks 0))),
            [])
  end.

(** *** What the operand buffers hold from offset 2 on

    [sscanf] and [strcpy] write a string and its terminator and leave
    the rest of the buffer as it was, so that after a string of fewer
    than two characters the buffer still holds, from offset 2 on, what
    an earlier and longer string left there.  The functions below go
    through the three phases of [process_file] once more and keep next
    to every line the C string that its operand buffer holds from
    offset 2 on: writing [s] to a buffer that held [tail] there leaves
    [advance 2 s tail].  [init_behind n] is that string for the fresh
    array element [n] when the operand of [init n] has fewer than two
    characters. *)

(** [sscanf] writes the operand only when there is a third token. *)
Definition sscanf3_tail (s : string) (tail : string) : string :=
  let s1 := skip_space s in
  if negb (nonempty s1) then tail
  else
    let '(t1, r1) := read_token s1 in
    let s2 := skip_space r1 in
    if negb (nonempty s2) then tail
    else
      let '(t2, r2) := read_token s2 in
      let s3 := skip_space r2 in
      if negb (nonempty s3) then tail
      else advance 2 (fst (read_token s3)) tail.

Fixpoint read_slots (init : nat -> LINE) (init_behind : nat -> string)
    (chunks : list string) (line_count : nat) : list (LINE * string) :=
  match chunks with
  | [] => []
  | chunk :: rest =>
      let start := clean chunk in
      if negb (nonempty start)
      then read_slots init init_behind rest line_count
      else (sscanf3 start (init line_count),
            sscanf3_tail start
              (advance 2 (operand (init line_count))
                       (init_behind line_count)))
           :: read_slots init init_behind rest (S line_count)
  end.

(** The format correction copies the operation to the operand. *)
Definition correct_slot (slot : LINE * string) : LINE * string :=
  let '(l, tail) := slot in
  (format_correction l,
   if nonempty (label l) && is_mnemonic_label (label l)
   then advance 2 (operation l) tail
   else tail).

(** [strcpy] of the three fields of [x] to [arr[index]]. *)
Fixpoint store_slot (index : nat) (x : LINE) (arr : list (LINE * string))
  : list (LINE * string) :=
  match arr, index with
  | [], _ => []
  | (_, tail) :: t, O => (x, advance 2 (operand x) tail) :: t
  | h :: t, S n => h :: store_slot n x t
  end.

Fixpoint compact_slots_loop (steps i index : nat)
    (arr : list (LINE * string)) : nat * list (LINE * string) :=
  match steps with
  | O => (index, arr)
  | S steps' =>
      let li := fst (nth i arr (mkLINE "" "" "", "")) in
      if has_field li then
        compact_slots_loop steps' (S i) (S index)
          (if (i =? index)%nat then arr else store_slot index li arr)
      else compact_slots_loop steps' (S i) index arr
  end.

Definition compact_slots (arr : list (LINE * string))
  : list (LINE * string) :=
  let '(index, arr') := compact_slots_loop (List.length arr) 0 0 arr in
  firstn index arr'.

(** The array that [process_file] returns, with the operand tails. *)
Definition script_slots (chunks : list string) (init : nat -> LINE)
    (init_behind : nat -> string) : list (LINE * string) :=
  compact_slots (map correct_slot (read_slots init init_behind chunks 0)).

Definition script_behind (chunks : list string) (init : nat -> LINE)
    (init_behind : nat -> string) (i : nat) : string :=
  snd (nth i (script_slots chunks init init_behind) (mkLINE "" "" "", "")).

(** [assemble] on the result of [process_file("script.asm", ...)]. *)
Definition assemble_script (file : option (list string)) (malloc_ok : bool)
    (init : nat -> LINE) (init_behind : nat -> string) (writable : bool)
  : outcome :=
  assemble (fst (process_file file malloc_ok init "script.asm"))
           (match file with
            | Some chunks => script_behind chunks init init_behind
            | None => fun _ => ""
            end)
           writable.

(** Operand buffers that are zero-filled from offset 2 on. *)
Definition no_stale_bytes (i : nat) : string := "".

(** A zero-filled array. *)
Definition zeroed (n : nat) : LINE := mkLINE "" "" "".

(** ** Definitions used by the further properties *)

(** Strings made of white space only. *)
Fixpoint all_space (s : string) : bool :=
  match s with
  | String c s' => isspace c && all_space s'
  | EmptyString => true
  end.

(** Tokens: non-empty, without white space and without [;]. *)
Fixpoint word_chars (s : string) : bool :=
  match s with
  | String c s' => negb (isspace c) && negb (c =? ";")%char && word_chars s'
  | EmptyString => true
  end.

Definition is_word (s : string) : bool := nonempty s && word_chars s.

(** A line of three tokens as one would write it to the file. *)
Definition render_line (l : LINE) : string :=
  (label l ++ " " ++ operation l ++ " " ++ operand l ++ String "010" "")%string.

Definition three_words (l : LINE) : bool :=
  is_word (label l) && is_word (operation l) && is_word (operand l).

Definition duplicate_label_program : list LINE :=
  [ mkLINE "ORG" "0x000" "";
    mkLINE "L" "WB" "0x01";
    mkLINE "L" "WB" "0x02";
    mkLINE "" "BR" "L";
    mkLINE "" "EOP" "" ].

Definition dropped_branch_program : list LINE :=
  [ mkLINE "ORG" "0x000" "";
    mkLINE "" "BR" "0x04";
    mkLINE "" "WB" "0x01";
    mkLINE "" "EOP" "" ].

(** A decimal numeral with a first digit other than 0. *)
Definition starts_nonzero (d : Decimal.uint) : bool :=
  match d with
  | Decimal.Nil | Decimal.D0 _ => false
  | _ => true
  end.

(** A hexadecimal digit in either letter case, in the lower case that
    the Standard Library reads. *)
Definition lower_hex_char (c : ascii) : ascii :=
  if (c =? "A")%char then "a"%char
  else if (c =? "B")%char then "b"%char
  else if (c =? "C")%char then "c"%char
  else if (c =? "D")%char then "d"%char
  else if (c =? "E")%char then "e"%char
  else if (c =? "F")%char then "f"%char
  else c.

Fixpoint lower_hex (s : string) : string :=
  match s with
  | String c s' => String (lower_hex_char c) (lower_hex s')
  | EmptyString => EmptyString
  end.

(** [s] is a hexadecimal numeral, with letters in either case, and
    reads as [d]. *)
Definition hex_numeral (s : string) (d : Hexadecimal.uint) : Prop :=
  HexadecimalString.NilEmpty.uint_of_string (lower_hex s) = Some d.

(** * Properties *)

Section Pass1Facts.

Lemma pass1_fold_hasEOP (ls : list LINE) :
  forall st,
    hasEOP (fold_left pass1_step ls st) = hasEOP st || existsb eop_line ls.
Proof.
  induction ls as [|l ls IH]; intros st; simpl.
  - now rewrite orb_false_r.
  - rewrite IH. simpl. destruct (eop_line l); simpl.
    + now rewrite orb_true_r.
    + reflexivity.
Qed.

Lemma pass1_fold_labels (ls : list LINE) :
  forall st,
    labels (fold_left pass1_step ls st)
    = labels st ++ label_table (temp_address st) ls.
Proof.
  induction ls as [|l ls IH]; intros st; simpl.
  - now rewrite app_nil_r.
  - rewrite IH. simpl. destruct (nonempty (label l)); simpl.
    + now rewrite <- app_assoc.
    + reflexivity.
Qed.

Lemma pass1_hasEOP (a : Z) (lines : list LINE) :
  hasEOP (pass1 a lines) = existsb eop_line (skipn 1 lines).
Proof. unfold pass1. now rewrite pass1_fold_hasEOP. Qed.

Lemma pass1_labels (a : Z) (lines : list LINE) :
  labels (pass1 a lines) = label_table a (skipn 1 lines).
Proof. unfold pass1. now rewrite pass1_fold_labels. Qed.

Lemma label_table_names (ls : list LINE) :
  forall a, map lname (label_table a ls) = filter nonempty (map label ls).
Proof.
  induction ls as [|l ls IH]; intros a; simpl; [reflexivity|].
  rewrite map_app, IH. now destruct (nonempty (label l)).
Qed.

Lemma labelFound_names (name : string) (tbl : list LABEL) :
  labelFound name tbl = existsb (String.eqb name) (map lname tbl).
Proof.
  unfold labelFound.
  induction tbl as [|lb tbl IH]; simpl; [reflexivity|].
  destruct (name == lname lb); simpl; [reflexivity | exact IH].
Qed.

Lemma labelFound_known (lines : list LINE) (name : string) (a : Z) :
  labelFound name (labels (pass1 a lines)) = known lines name.
Proof.
  rewrite labelFound_names, pass1_labels, label_table_names.
  reflexivity.
Qed.

Lemma uint_idem (z : Z) : uint (uint z) = uint z.
Proof. unfold uint. now rewrite Z.mod_mod. Qed.

Lemma uint_step (a k : Z) : uint (uint (a + 2) + 2 * k) = uint (a + 2 * (k + 1)).
Proof.
  unfold uint. rewrite Z.add_mod_idemp_l by (now compute).
  f_equal. lia.
Qed.

Lemma set_address_uint (lines : list LINE) :
  uint (set_address lines) = set_address lines.
Proof.
  unfold set_address.
  induction lines as [|l lines IH]; simpl; [reflexivity|].
  destruct (label l == "ORG"); [apply uint_idem | exact IH].
Qed.

End Pass1Facts.

Lemma flat_map_pointwise {A B : Type} (f g : A -> list B) (xs : list A) :
  (forall x, f x = g x) -> flat_map f xs = flat_map g xs.
Proof.
  intros H. induction xs as [|x xs IH]; simpl; [reflexivity|].
  now rewrite H, IH.
Qed.

Lemma flat_map_nil_inv {A B : Type} (f : A -> list B) (xs : list A) :
  flat_map f xs = [] -> forall x, In x xs -> f x = [].
Proof.
  induction xs as [|y xs IH]; simpl; intros H x Hin; [contradiction|].
  apply app_eq_nil in H as [Hy Hxs].
  destruct Hin as [<-|Hin]; [exact Hy | now apply IH].
Qed.

Lemma flat_map_nil_intro {A B : Type} (f : A -> list B) (xs : list A) :
  (forall x, In x xs -> f x = []) -> flat_map f xs = [].
Proof.
  induction xs as [|y xs IH]; simpl; intros H; [reflexivity|].
  rewrite (H y) by now left. simpl. apply IH. intros x Hx. apply H. now right.
Qed.

(** A line without messages in the second loop has a known mnemonic. *)
Lemma operation_errors_nil_opcode (found : string -> bool) (l : LINE) :
  operation_errors found l = [] ->
  (opcode (get_opcode (operation l)) =? -1) = false.
Proof.
  unfold operation_errors.
  destruct (opcode (get_opcode (operation l)) =? -1); simpl;
    [discriminate | reflexivity].
Qed.

Section ValidationFacts.

Variable tbl : list LABEL.

Let found (name : string) : bool := labelFound name tbl.

Lemma check_labels_fold (ls : list LINE) :
  forall st,
    fold_left (check_labels_step tbl) ls st
    = (fst st || negb (is_nil (flat_map (label_errors found) ls)),
       snd st ++ flat_map (label_errors found) ls).
Proof.
  induction ls as [|l ls IH]; intros [b msgs]; simpl.
  - now rewrite orb_false_r, app_nil_r.
  - rewrite IH. unfold check_labels_step, label_errors, found. simpl.
    destruct (symbolic (operand l)); simpl; [|reflexivity].
    destruct (labelFound (operand l) tbl); simpl; [reflexivity|].
    now rewrite orb_true_r, <- app_assoc.
Qed.

Lemma check_operations_fold (ls : list LINE) :
  forall st,
    fold_left (check_operations_step tbl) ls st
    = (fst st || negb (is_nil (flat_map (operation_errors found) ls)),
       snd st ++ flat_map (operation_errors found) ls).
Proof.
  induction ls as [|l ls IH]; intros [b msgs]; simpl.
  - now rewrite orb_false_r, app_nil_r.
  - rewrite IH. unfold check_operations_step, operation_errors, found.
    simpl.
    destruct (opcode (get_opcode (operation l)) =? -1);
      destruct (is_branch (operation l));
      destruct (symbolic (operand l));
      destruct (labelFound (operand l) tbl); simpl;
      rewrite ?orb_true_r, <- ?app_assoc; reflexivity.
Qed.

Lemma check_labels_closed (lines : list LINE) :
  check_labels tbl lines
  = (negb (is_nil (flat_map (label_errors found) (skipn 1 lines))),
     flat_map (label_errors found) (skipn 1 lines)).
Proof. unfold check_labels. now rewrite check_labels_fold. Qed.

Lemma check_operations_closed (lines : list LINE) :
  check_operations tbl lines
  = (negb (is_nil (flat_map (operation_errors found) (skipn 1 lines))),
     flat_map (operation_errors found) (skipn 1 lines)).
Proof. unfold check_operations. now rewrite check_operations_fold. Qed.

Lemma pass2_fold (behind : nat -> string) (ls : list LINE) :
  forall st,
    (forall l, In l ls -> (opcode (get_opcode (operation l)) =? -1) = false) ->
    console (fold_left (pass2_step tbl behind) ls st) = console st
    /\ written (fold_left (pass2_step tbl behind) ls st)
       = written st ++ emitted tbl behind (index st) (cur_address st) ls.
Proof.
  induction ls as [|l ls IH]; intros st Hok; simpl.
  - now rewrite app_nil_r.
  - assert (Hl : (opcode (get_opcode (operation l)) =? -1) = false)
      by (apply Hok; now left).
    destruct (IH (pass2_step tbl behind st l)) as [Hc Hw].
    { intros l' Hl'. apply Hok. now right. }
    rewrite Hc, Hw. unfold pass2_step. rewrite Hl. simpl.
    split; [reflexivity|].
    destruct (encode_line tbl (behind (index st)) (cur_address st) l); simpl.
    + now rewrite <- app_assoc.
    + reflexivity.
Qed.

End ValidationFacts.

(** *** [assemble] in closed form *)

Lemma labelFound_table (lines : list LINE) (a : Z) (name : string) :
  labelFound name (label_table a (skipn 1 lines)) = known lines name.
Proof. rewrite <- pass1_labels. apply labelFound_known. Qed.

Lemma assemble_closed (lines : list LINE)
    (behind : nat -> string) (writable : bool) :
  let base := set_address lines in
  let body := skipn 1 lines in
  let tbl := label_table base body in
  let dump := map LineDump lines in
  assemble (Some lines) behind writable =
  if negb (existsb eop_line body) then mkOutcome 0 (dump ++ [NoEOPFound]) None
  else if negb (is_nil (flat_map (label_errors (known lines)) body))
  then mkOutcome 0 (dump ++ flat_map (label_errors (known lines)) body) None
  else if negb (is_nil (flat_map (operation_errors (known lines)) body))
  then mkOutcome 0 (dump ++ flat_map (operation_errors (known lines)) body)
                 None
  else if negb writable then mkOutcome 0 (dump ++ [ErrorOpeningOutput]) None
  else mkOutcome 1 dump (Some (emitted tbl behind 1 base body)).
Proof.
  intros base body tbl dump. unfold assemble.
  rewrite pass1_hasEOP, pass1_labels.
  fold base body tbl dump.
  destruct (existsb eop_line body); simpl; [|reflexivity].
  rewrite check_labels_closed, check_operations_closed. fold body.
  rewrite (flat_map_pointwise
             (label_errors (fun name => labelFound name tbl))
             (label_errors (known lines)))
    by (intros l; unfold label_errors, tbl, body;
        now rewrite labelFound_table).
  assert (Hops : flat_map (operation_errors (fun name => labelFound name tbl))
                          body
                 = flat_map (operation_errors (known lines)) body).
  { apply flat_map_pointwise. intros l. unfold operation_errors, tbl, body.
    now rewrite labelFound_table. }
  rewrite Hops.
  destruct (flat_map (label_errors (known lines)) body) as [|m4 e4] eqn:E4;
    simpl; [|reflexivity].
  destruct (flat_map (operation_errors (known lines)) body)
    as [|m5 e5] eqn:E5; simpl; [|reflexivity].
  destruct writable; simpl; [|reflexivity].
  unfold pass2. fold body.
  destruct (pass2_fold tbl behind body (mkPass2 1 base [] [])) as [Hc Hw].
  { intros l Hl. apply (operation_errors_nil_opcode (known lines)).
    now apply (flat_map_nil_inv _ _ E5). }
  rewrite Hc, Hw. simpl. now rewrite app_nil_r.
Qed.

(** ** The instruction table *)

Ltac split_on_mnemonic :=
  repeat match goal with
         | |- context [String.eqb ?a ?b] =>
             destruct (String.eqb_spec a b); [subst|]
         end.

Lemma get_opcode_known_inv (m : string) :
  opcode (get_opcode m) <> -1 ->
  In m (encoded_operand_mnemonics ++ plain_mnemonics).
Proof.
  unfold get_opcode. split_on_mnemonic; simpl; intros H;
    try (exfalso; apply H; reflexivity); tauto.
Qed.

(** C10. The lookup knows exactly the 23 mnemonics of the two lists; it
    returns [addBoolean = true] for the eight of
    [encoded_operand_mnemonics] and [false] for the fifteen of
    [plain_mnemonics], so a known mnemonic with [addBoolean = true] that
    is not a branch is one of WM, RM, WIO. *)
Theorem get_opcode_addBoolean :
  (forall m, opcode (get_opcode m) <> -1
             <-> In m (encoded_operand_mnemonics ++ plain_mnemonics))
  /\ (forall m, In m encoded_operand_mnemonics ->
                addBoolean (get_opcode m) = true)
  /\ (forall m, In m plain_mnemonics -> addBoolean (get_opcode m) = false)
  /\ (forall m, opcode (get_opcode m) <> -1 ->
                (addBoolean (get_opcode m) = true
                 <-> In m encoded_operand_mnemonics))
  /\ (forall m, opcode (get_opcode m) <> -1 ->
                addBoolean (get_opcode m) = true ->
                is_branch m = false ->
                In m ["WM"; "RM"; "WIO"]).
Proof.
  assert (Henc : forall m, In m encoded_operand_mnemonics ->
                           addBoolean (get_opcode m) = true).
  { intros m Hm. simpl in Hm.
    repeat (destruct Hm as [<-|Hm]; [reflexivity|]). contradiction. }
  assert (Hplain : forall m, In m plain_mnemonics ->
                             opcode (get_opcode m) <> -1
                             /\ addBoolean (get_opcode m) = false).
  { intros m Hm. simpl in Hm.
    repeat (destruct Hm as [<-|Hm]; [split; [discriminate|reflexivity]|]).
    contradiction. }
  repeat split.
  - apply get_opcode_known_inv.
  - intros Hm. apply in_app_or in Hm as [Hm|Hm].
    + simpl in Hm.
      repeat (destruct Hm as [<-|Hm]; [discriminate|]). contradiction.
    + now apply Hplain.
  - exact Henc.
  - intros m Hm. now apply Hplain.
  - intros Hb. apply get_opcode_known_inv in H.
    apply in_app_or in H as [Hm|Hm]; [exact Hm|].
    apply Hplain in Hm as [_ Hm]. congruence.
  - apply Henc.
  - intros m Hk Hb Hnb. apply get_opcode_known_inv in Hk.
    apply in_app_or in Hk as [Hm|Hm].
    + simpl in Hm.
      destruct Hm as [<-|[<-|[<-|Hm]]]; simpl; auto.
      repeat (destruct Hm as [<-|Hm]; [discriminate Hnb|]). contradiction.
    + apply Hplain in Hm as [_ Hm]. congruence.
Qed.

Lemma get_opcode_addBoolean_witness :
  addBoolean (get_opcode "WIO") = true /\ In "RM" ["WM"; "RM"; "WIO"].
Proof.
  split.
  - apply (proj1 (proj2 get_opcode_addBoolean) "WIO"). simpl. tauto.
  - apply (proj2 (proj2 (proj2 (proj2 get_opcode_addBoolean))) "RM");
      [discriminate | reflexivity | reflexivity].
Defined.

Lemma is_branch_encoded (m : string) :
  is_branch m = true ->
  opcode (get_opcode m) <> -1 /\ addBoolean (get_opcode m) = true.
Proof.
  unfold is_branch. intros H.
  repeat (apply orb_prop in H as [H|H]);
    apply String.eqb_eq in H; subst; split; (discriminate || reflexivity).
Qed.

(** ** The base address *)

(** C7, as stated, fails: the ORG line at index 1 sets the base address
    to 16 although line 0 is not an ORG line.  Further, [strtol] with
    base 0 reads a leading [0] as octal, so that [ORG 010] on line 0
    gives 8 and not 10. *)
Lemma set_address_late_org :
  spec_base late_org_program = 0
  /\ set_address late_org_program = 16
  /\ set_address late_org_program <> spec_base late_org_program
  /\ spec_base [mkLINE "ORG" "010" ""; mkLINE "" "EOP" ""] = 10
  /\ set_address [mkLINE "ORG" "010" ""; mkLINE "" "EOP" ""] = 8.
Proof. repeat split. discriminate. Qed.

Example set_address_decimal_hex :
  set_address [mkLINE "ORG" "100" ""] = 100
  /\ set_address [mkLINE "ORG" "0x1F" ""] = 31.
Proof. split; reflexivity. Qed.

(** C7 (amended). The base address is read, by [strtol] with automatic
    base and conversion to [unsigned int], from the operation field of
    the first line, at any index, whose label field is ORG; it is 0
    when no line has that label. *)
Theorem set_address_first_org (lines : list LINE) :
  (forall k l,
      nth_error lines k = Some l ->
      label l = "ORG" ->
      (forall j l', (j < k)%nat -> nth_error lines j = Some l' ->
                    label l' <> "ORG") ->
      set_address lines = uint (strtol0 (operation l)))
  /\ ((forall l, In l lines -> label l <> "ORG") -> set_address lines = 0).
Proof.
  unfold set_address. split.
  - induction lines as [|l0 lines IH]; intros k l Hk Hl Hfirst.
    + destruct k; discriminate.
    + destruct k as [|k]; simpl in *.
      * injection Hk as ->. rewrite Hl. reflexivity.
      * destruct (String.eqb_spec (label l0) "ORG") as [E|_].
        { exfalso. apply (Hfirst 0%nat l0); [lia | reflexivity | exact E]. }
        apply (IH k l Hk Hl). intros j l' Hj Hnth.
        apply (Hfirst (S j) l'); [lia | exact Hnth].
  - induction lines as [|l0 lines IH]; intros Hno; simpl; [reflexivity|].
    destruct (String.eqb_spec (label l0) "ORG") as [E|_].
    + exfalso. apply (Hno l0); [now left | exact E].
    + apply IH. intros l Hl. apply Hno. now right.
Qed.

Lemma set_address_first_org_witness :
  set_address late_org_program = uint (strtol0 "0x10")
  /\ set_address [mkLINE "" "EOP" ""] = 0.
Proof.
  split.
  - apply (proj1 (set_address_first_org late_org_program) 1%nat
                 (mkLINE "ORG" "0x10" "")); [reflexivity | reflexivity |].
    intros j l' Hj Hnth. destruct j as [|j]; [|lia].
    injection Hnth as <-. discriminate.
  - apply (proj2 (set_address_first_org [mkLINE "" "EOP" ""])).
    intros l [<-|[]]. discriminate.
Defined.

(** ** Line 0 *)




(** ** The end-of-program check *)

Section MessageKinds.

Variable found : string -> bool.

Lemma label_errors_kind (ls : list LINE) (m : message) :
  In m (flat_map (label_errors found) ls) ->
  exists l, In l ls /\ m = UnknownLabel (operand l)
            /\ symbolic (operand l) = true
            /\ found (operand l) = false.
Proof.
  intros H. apply in_flat_map in H as (l & Hl & Hm).
  exists l. unfold label_errors in Hm.
  destruct (symbolic (operand l)); simpl in Hm; [|contradiction].
  destruct (found (operand l)); simpl in Hm; [contradiction|].
  destruct Hm as [<-|[]]. auto.
Qed.

Lemma operation_errors_kind (ls : list LINE) (m : message) :
  In m (flat_map (operation_errors found) ls) ->
  exists l, In l ls
            /\ (m = InvalidInstruction (label l)
                \/ m = InvalidOperand (operation l)).
Proof.
  intros H. apply in_flat_map in H as (l & Hl & Hm).
  exists l. split; [exact Hl|]. unfold operation_errors in Hm.
  apply in_app_or in Hm as [Hm|Hm].
  - destruct (opcode (get_opcode (operation l)) =? -1);
      [destruct Hm as [<-|[]]; now left | contradiction].
  - destruct (negb (is_branch (operation l)) && symbolic (operand l)
              && found (operand l));
      [destruct Hm as [<-|[]]; now right | contradiction].
Qed.

Lemma dump_kind (ls : list LINE) (m : message) :
  In m (map LineDump ls) -> exists l, m = LineDump l.
Proof.
  intros H. apply in_map_iff in H as (l & <- & _). now exists l.
Qed.

End MessageKinds.

Lemma no_eop_iff (ls : list LINE) :
  existsb eop_line ls = false
  <-> (forall l, In l ls -> label l <> "EOP" /\ operation l <> "EOP").
Proof.
  split.
  - intros H l Hl.
    assert (E : eop_line l = false).
    { destruct (eop_line l) eqn:E; [|reflexivity].
      assert (existsb eop_line ls = true)
        by (apply existsb_exists; now exists l).
      congruence. }
    unfold eop_line in E. apply orb_false_elim in E as [E1 E2].
    split; now apply String.eqb_neq.
  - intros H. destruct (existsb eop_line ls) eqn:E; [|reflexivity].
    apply existsb_exists in E as (l & Hl & E).
    destruct (H l Hl) as [H1 H2].
    apply String.eqb_neq in H1, H2.
    unfold eop_line in E. rewrite H1, H2 in E. discriminate.
Qed.

(** C3, as stated, fails: the only line of this program has EOP as its
    operation field, yet assembly stops with the missing-EOP error. *)
Lemma no_eop_error_with_eop_on_line0 :
  ~ (In NoEOPFound
         (stdout (assemble (Some only_eop_program) no_stale_bytes true))
     <-> (forall l, In l only_eop_program ->
                    label l <> "EOP" /\ operation l <> "EOP")).
Proof.
  intros [H _].
  assert (Herr : In NoEOPFound
                    (stdout (assemble (Some only_eop_program)
                                      no_stale_bytes true)))
    by (vm_compute; tauto).
  destruct (H Herr (mkLINE "" "EOP" "") (or_introl eq_refl)) as [_ Hop].
  now apply Hop.
Qed.

(** Once the EOP check has passed, [NoEOPFound] is not printed. *)
Lemma stdout_after_eop_check (lines : list LINE)
    (behind : nat -> string) (writable : bool) :
  existsb eop_line (skipn 1 lines) = true ->
  ~ In NoEOPFound (stdout (assemble (Some lines) behind writable)).
Proof.
  intros Heop. rewrite assemble_closed, Heop.
  set (body := skipn 1 lines).
  set (tbl := known lines).
  assert (Hdump : ~ In NoEOPFound (map LineDump lines)).
  { intros H. apply dump_kind in H as (l & H). discriminate. }
  cbn [negb].
  destruct (flat_map (label_errors tbl) body) as [|m4 e4] eqn:E4;
    cbn [is_nil negb stdout].
  - destruct (flat_map (operation_errors tbl) body) as [|m5 e5] eqn:E5;
      cbn [is_nil negb stdout].
    + destruct writable; cbn [negb stdout]; [exact Hdump|].
      intros H. apply in_app_or in H as [H|[H|[]]];
        [now apply Hdump | discriminate].
    + rewrite <- E5. intros H. apply in_app_or in H as [H|H];
        [now apply Hdump|].
      apply operation_errors_kind in H as (l & _ & [H|H]); discriminate.
  - rewrite <- E4. intros H. apply in_app_or in H as [H|H];
      [now apply Hdump|].
    apply label_errors_kind in H as (l & _ & H & _). discriminate.
Qed.

(** C3 (amended). Assembly stops with the missing-EOP error exactly
    when no line after line 0 has EOP as its label or operation field;
    in that case the status is 0 and [translation.txt] is not opened. *)
Theorem no_eop_error_iff (lines : list LINE)
    (behind : nat -> string) (writable : bool) :
  (In NoEOPFound (stdout (assemble (Some lines) behind writable))
   <-> (forall l, In l (skipn 1 lines) ->
                  label l <> "EOP" /\ operation l <> "EOP"))
  /\ (In NoEOPFound (stdout (assemble (Some lines) behind writable)) ->
      assemble (Some lines) behind writable
      = mkOutcome 0 (map LineDump lines ++ [NoEOPFound]) None).
Proof.
  rewrite <- no_eop_iff.
  destruct (existsb eop_line (skipn 1 lines)) eqn:Heop.
  - pose proof (stdout_after_eop_check lines behind writable Heop) as Hnot.
    split; [split|]; intros H; try discriminate; contradiction.
  - rewrite assemble_closed, Heop. cbn [negb stdout].
    split; [split|]; intros _; try reflexivity.
    apply in_or_app. right. now left.
Qed.

(** The amended C3 at the program whose only EOP is on line 0. *)
Lemma no_eop_error_iff_witness :
  assemble (Some only_eop_program) no_stale_bytes true
  = mkOutcome 0 (map LineDump only_eop_program ++ [NoEOPFound]) None.
Proof.
  apply (proj2 (no_eop_error_iff only_eop_program no_stale_bytes true)).
  vm_compute. tauto.
Defined.

(** ** Validation *)

Lemma label_errors_filter (lines ls : list LINE) :
  flat_map (label_errors (known lines)) ls
  = map (fun l => UnknownLabel (operand l)) (filter (unknown_operand lines) ls).
Proof.
  induction ls as [|l ls IH]; simpl; [reflexivity|].
  rewrite IH. unfold label_errors, unknown_operand, symbolic.
  now destruct (nonempty (operand l) && negb (has_prefix "0x" (operand l))
                && negb (known lines (operand l))).
Qed.

Lemma known_nonempty (lines : list LINE) (name : string) :
  known lines name = true -> nonempty name = true.
Proof.
  unfold known, declared. intros H.
  apply existsb_exists in H as (n & Hn & E).
  apply String.eqb_eq in E. subst n.
  now apply filter_In in Hn as [_ Hn].
Qed.

Lemma is_nil_false {A : Type} (xs : list A) :
  xs <> [] -> is_nil xs = false.
Proof. destruct xs; [congruence | reflexivity]. Qed.

(** C4, as stated, fails: [0x0G] is non-empty, is not a well-formed
    hexadecimal literal and is no label, yet validation accepts it and
    a file is written.  Further, an operand that is no label at all is
    not reported when the program has no EOP after line 0 (the EOP check
    stops assembly first) or when it stands on line 0. *)
Lemma malformed_literal_accepted :
  nonempty "0x0G" = true
  /\ hex_literal "0x0G" = false
  /\ known bad_literal_program "0x0G" = false
  /\ assemble (Some bad_literal_program) no_stale_bytes true
     = mkOutcome 1 (map LineDump bad_literal_program)
         (Some [ OutSplit 0 0x30 (SecondUnknown "0x0G" "WB");
                 OutSplit 2 0xF8 (SecondZero 3) ])
  /\ stdout (assemble (Some [ mkLINE "ORG" "0x000" "";
                              mkLINE "" "WB" "NOWHERE" ])
                      no_stale_bytes true)
     = [ LineDump (mkLINE "ORG" "0x000" "");
         LineDump (mkLINE "" "WB" "NOWHERE");
         NoEOPFound ]
  /\ assemble (Some [ mkLINE "" "WB" "NOWHERE"; mkLINE "" "EOP" "" ])
               no_stale_bytes true
     = mkOutcome 1
         [ LineDump (mkLINE "" "WB" "NOWHERE"); LineDump (mkLINE "" "EOP" "") ]
         (Some [ OutSplit 0 0xF8 (SecondZero 1) ]).
Proof. repeat split. Qed.

(** C4 (amended). In a program that passes the EOP check, an operand of
    a line after line 0 that is non-empty, does not begin with [0x] and
    is not a declared label is reported as an unknown label; assembly
    stops with status 0 and without opening the output file, after
    printing one such message for every offending line, in program
    order. *)
Theorem unknown_labels_reported (lines : list LINE)
    (behind : nat -> string) (writable : bool) (l : LINE) :
  existsb eop_line (skipn 1 lines) = true ->
  In l (skipn 1 lines) ->
  nonempty (operand l) = true ->
  has_prefix "0x" (operand l) = false ->
  known lines (operand l) = false ->
  assemble (Some lines) behind writable
  = mkOutcome 0
      (map LineDump lines
       ++ map (fun l' => UnknownLabel (operand l'))
              (filter (unknown_operand lines) (skipn 1 lines)))
      None
  /\ In (UnknownLabel (operand l))
        (stdout (assemble (Some lines) behind writable)).
Proof.
  intros Heop Hl Hne Hpre Hknown.
  assert (Hin : In l (filter (unknown_operand lines) (skipn 1 lines))).
  { apply filter_In. split; [exact Hl|].
    unfold unknown_operand. now rewrite Hne, Hpre, Hknown. }
  assert (Hout : assemble (Some lines) behind writable
                 = mkOutcome 0
                     (map LineDump lines
                      ++ map (fun l' => UnknownLabel (operand l'))
                           (filter (unknown_operand lines) (skipn 1 lines)))
                     None).
  { rewrite assemble_closed, Heop, label_errors_filter. cbn [negb].
    rewrite is_nil_false; [reflexivity|].
    destruct (filter (unknown_operand lines) (skipn 1 lines));
      [contradiction | discriminate]. }
  split; [exact Hout|].
  rewrite Hout. cbn [stdout]. apply in_or_app. right.
  apply in_map_iff. now exists l.
Qed.

Lemma unknown_labels_reported_witness :
  assemble (Some unknown_label_program) no_stale_bytes true
  = mkOutcome 0
      (map LineDump unknown_label_program
       ++ [UnknownLabel "NOWHERE"; UnknownLabel "ELSEWHERE"])
      None.
Proof.
  apply (unknown_labels_reported unknown_label_program no_stale_bytes true
           (mkLINE "" "WB" "ELSEWHERE")); try reflexivity.
  simpl. tauto.
Defined.

(** C5, as stated, fails: line 1 has an unknown label operand and an
    unknown mnemonic; only the first is reported, because assembly
    returns after the first validation loop.  Without an EOP after
    line 0 neither is reported. *)
Lemma second_check_skipped :
  opcode (get_opcode "FOO") = -1
  /\ assemble (Some two_errors_program) no_stale_bytes true
     = mkOutcome 0
         (map LineDump two_errors_program ++ [UnknownLabel "NOWHERE"]) None
  /\ (forall t, ~ In (InvalidInstruction t)
                     (stdout (assemble (Some two_errors_program)
                                       no_stale_bytes true)))
  /\ assemble (Some [ mkLINE "ORG" "0x000" ""; mkLINE "L" "FOO" "NOWHERE" ])
               no_stale_bytes true
     = mkOutcome 0
         [ LineDump (mkLINE "ORG" "0x000" "");
           LineDump (mkLINE "L" "FOO" "NOWHERE");
           NoEOPFound ]
         None.
Proof.
  repeat split. intros t H. vm_compute in H.
  repeat (destruct H as [H|H]; [discriminate|]). contradiction.
Qed.

(** C5 (amended). Validation runs in two stages over all lines after
    line 0.  The unknown-label loop reports every offending operand; if
    it reported any, assembly stops there and the second loop does not
    run.  Otherwise the second loop reports every unknown mnemonic and
    every label operand on a non-branch mnemonic, and assembly stops if
    it reported any.  A file is written only if neither loop reported
    anything. *)
Theorem validation_in_two_stages (lines : list LINE)
    (behind : nat -> string) (writable : bool) :
  existsb eop_line (skipn 1 lines) = true ->
  let unknown :=
    map (fun l => UnknownLabel (operand l))
        (filter (unknown_operand lines) (skipn 1 lines)) in
  let invalid := flat_map (operation_errors (known lines)) (skipn 1 lines) in
  (unknown <> [] ->
   assemble (Some lines) behind writable
   = mkOutcome 0 (map LineDump lines ++ unknown) None)
  /\ (unknown = [] -> invalid <> [] ->
      assemble (Some lines) behind writable
      = mkOutcome 0 (map LineDump lines ++ invalid) None)
  /\ (file (assemble (Some lines) behind writable) <> None ->
      unknown = [] /\ invalid = []).
Proof.
  intros Heop unknown invalid.
  rewrite assemble_closed, Heop, label_errors_filter. cbn [negb].
  fold unknown invalid. repeat split.
  - intros H. now rewrite (is_nil_false _ H).
  - intros -> H. cbn [is_nil negb]. now rewrite (is_nil_false _ H).
  - destruct unknown; [reflexivity|]. cbn [is_nil negb file] in *.
    congruence.
  - destruct unknown; cbn [is_nil negb file] in *; [|congruence].
    destruct invalid; [reflexivity|]. cbn [is_nil negb file] in *.
    congruence.
Qed.

Lemma validation_in_two_stages_witness :
  assemble (Some unknown_label_program) no_stale_bytes true
  = mkOutcome 0
      (map LineDump unknown_label_program
       ++ [UnknownLabel "NOWHERE"; UnknownLabel "ELSEWHERE"])
      None
  /\ assemble (Some invalid_operation_program) no_stale_bytes true
     = mkOutcome 0
         (map LineDump invalid_operation_program
          ++ [InvalidInstruction "L"; InvalidOperand "ADD"])
         None.
Proof.
  split.
  - apply (proj1 (validation_in_two_stages unknown_label_program
                    no_stale_bytes true eq_refl)).
    discriminate.
  - apply (proj1 (proj2 (validation_in_two_stages invalid_operation_program
                           no_stale_bytes true eq_refl)));
      [reflexivity | discriminate].
Defined.

(** ** Label operands on non-branch mnemonics *)

(** C8, as stated, fails: the operand of ADD is exactly the declared
    label [0x10], yet no error is reported and the file is written,
    with the label's address as the second byte of ADD.  Further, a
    label operand of ADD is not reported when the first validation loop
    has already found an unknown label, or when the program has no EOP
    after line 0. *)
Lemma label_operand_with_hex_prefix_accepted :
  is_branch "ADD" = false
  /\ known hex_named_label_program "0x10" = true
  /\ assemble (Some hex_named_label_program) no_stale_bytes true
     = mkOutcome 1 (map LineDump hex_named_label_program)
         (Some [ OutSplit 0 0x30 (SecondText 1 "0x05");
                 OutSplit 2 0xF0 (SecondValue 3 0);
                 OutSplit 4 0xF8 (SecondZero 5) ])
  /\ known label_operand_and_unknown_program "myLabel" = true
  /\ assemble (Some label_operand_and_unknown_program) no_stale_bytes true
     = mkOutcome 0
         (map LineDump label_operand_and_unknown_program
          ++ [UnknownLabel "NOWHERE"])
         None
  /\ assemble (Some [ mkLINE "ORG" "0x000" "";
                      mkLINE "myLabel" "WB" "0x05";
                      mkLINE "" "ADD" "myLabel" ]) no_stale_bytes true
     = mkOutcome 0
         [ LineDump (mkLINE "ORG" "0x000" "");
           LineDump (mkLINE "myLabel" "WB" "0x05");
           LineDump (mkLINE "" "ADD" "myLabel");
           NoEOPFound ]
         None.
Proof. repeat split. Qed.

(** C8 (amended). In a program that passes the EOP check and has no
    unknown-label error, a line after line 0 whose mnemonic is not one
    of the five branch mnemonics and whose operand does not begin with
    [0x] and is a declared label is reported as an invalid operand;
    assembly stops with status 0 and without opening the output file,
    after the second loop has gone over all lines.  On a line with a
    branch mnemonic the second loop reports nothing. *)
Theorem label_operand_only_on_branches :
  (forall (lines : list LINE) (behind : nat -> string) (writable : bool)
          (l : LINE),
      existsb eop_line (skipn 1 lines) = true ->
      filter (unknown_operand lines) (skipn 1 lines) = [] ->
      In l (skipn 1 lines) ->
      is_branch (operation l) = false ->
      has_prefix "0x" (operand l) = false ->
      known lines (operand l) = true ->
      assemble (Some lines) behind writable
      = mkOutcome 0
          (map LineDump lines
           ++ flat_map (operation_errors (known lines)) (skipn 1 lines))
          None
      /\ In (InvalidOperand (operation l))
            (stdout (assemble (Some lines) behind writable)))
  /\ (forall (tbl : list LABEL) (st : bool * list message) (l : LINE),
         is_branch (operation l) = true ->
         check_operations_step tbl st l = st).
Proof.
  split.
  - intros lines behind writable l Heop Hunk Hl Hnb Hpre Hknown.
    assert (Hmsg : In (InvalidOperand (operation l))
                      (flat_map (operation_errors (known lines))
                                (skipn 1 lines))).
    { apply in_flat_map. exists l. split; [exact Hl|].
      unfold operation_errors. apply in_or_app. right.
      unfold symbolic.
      rewrite Hnb, Hpre, Hknown, (known_nonempty _ _ Hknown).
      now left. }
    assert (Hout : assemble (Some lines) behind writable
                   = mkOutcome 0
                       (map LineDump lines
                        ++ flat_map (operation_errors (known lines))
                                    (skipn 1 lines))
                       None).
    { rewrite assemble_closed, Heop, label_errors_filter, Hunk.
      cbn [negb map is_nil].
      rewrite is_nil_false; [reflexivity|].
      intros E. rewrite E in Hmsg. contradiction. }
    split; [exact Hout|]. rewrite Hout. cbn [stdout].
    apply in_or_app. now right.
  - intros tbl st l Hb. unfold check_operations_step.
    destruct (is_branch_encoded _ Hb) as [Hop _].
    apply Z.eqb_neq in Hop. rewrite Hop, Hb. reflexivity.
Qed.

Lemma label_operand_only_on_branches_witness :
  assemble (Some add_label_program) no_stale_bytes true
  = mkOutcome 0 (map LineDump add_label_program ++ [InvalidOperand "ADD"])
              None.
Proof.
  apply (proj1 label_operand_only_on_branches add_label_program
               no_stale_bytes true (mkLINE "" "ADD" "myLabel"));
    try reflexivity.
  simpl. tauto.
Defined.

(** ** The encoding loop *)

Section EmittedFacts.

Variable tbl : list LABEL.

Lemma encode_line_addr (b : string) (a : Z) (l : LINE) (o : out_line) :
  encode_line tbl b a l = Some o -> out_addr o = a.
Proof.
  unfold encode_line.
  destruct (addBoolean (get_opcode (operation l))).
  - destruct (is_branch (operation l)).
    + destruct (find_label (operand l) tbl); [|discriminate].
      now intros [= <-].
    + now intros [= <-].
  - now intros [= <-].
Qed.

(** A line is written unless the mnemonic is a branch and its operand
    is not in the label table. *)
Lemma encode_line_some (b : string) (a : Z) (l : LINE) :
  (is_branch (operation l) = true -> labelFound (operand l) tbl = true) ->
  exists o, encode_line tbl b a l = Some o.
Proof.
  unfold encode_line, labelFound. intros H.
  destruct (addBoolean (get_opcode (operation l))); [|eauto].
  destruct (is_branch (operation l)); [|eauto].
  destruct (find_label (operand l) tbl); [eauto|].
  specialize (H eq_refl). discriminate.
Qed.

Variable behind : nat -> string.


Lemma emitted_one_per_line (ls : list LINE) :
  forall i a,
    uint a = a ->
    (forall l, In l ls -> is_branch (operation l) = true ->
               labelFound (operand l) tbl = true) ->
    List.length (emitted tbl behind i a ls) = List.length ls
    /\ forall k l,
        nth_error ls k = Some l ->
        nth_error (emitted tbl behind i a ls) k
        = encode_line tbl (behind (i + k)) (uint (a + 2 * Z.of_nat k)) l.
Proof.
  induction ls as [|x ls IH]; intros i a Ha Hbr.
  - split; [reflexivity|]. intros [|k] l H; discriminate.
  - destruct (encode_line_some (behind i) a x) as [o Ho].
    { apply Hbr. now left. }
    destruct (IH (S i) (uint (a + 2)) (uint_idem _)) as [Hlen Hnth].
    { intros l Hl. apply Hbr. now right. }
    cbn [emitted]. rewrite Ho. split.
    + simpl. now rewrite Hlen.
    + intros [|k] l H; simpl in H.
      * injection H as <-. simpl. now rewrite Z.add_0_r, Ha, Nat.add_0_r.
      * cbn [app nth_error]. rewrite (Hnth k l H), uint_step.
        replace (Z.of_nat k + 1) with (Z.of_nat (S k)) by lia.
        replace (S i + k)%nat with (i + S k)%nat by lia.
        reflexivity.
Qed.

End EmittedFacts.


(** When a file is written, it holds the lines of the encoding loop. *)
Lemma assemble_file (lines : list LINE) (behind : nat -> string)
    (writable : bool) (out : list out_line) :
  file (assemble (Some lines) behind writable) = Some out ->
  out = emitted (label_table (set_address lines) (skipn 1 lines))
                behind 1 (set_address lines) (skipn 1 lines)
  /\ assemble (Some lines) behind writable
     = mkOutcome 1 (map LineDump lines) (Some out).
Proof.
  rewrite assemble_closed.
  destruct (negb (existsb eop_line (skipn 1 lines))); [discriminate|].
  destruct (negb (is_nil (flat_map (label_errors (known lines))
                                   (skipn 1 lines)))); [discriminate|].
  destruct (negb (is_nil (flat_map (operation_errors (known lines))
                                   (skipn 1 lines)))); [discriminate|].
  destruct (negb writable); [discriminate|].
  cbn [file]. intros [= <-]. split; reflexivity.
Qed.

(** *** One output line per line after line 0 *)

(** C1, as stated, fails: this program passes validation and has two
    instruction lines and no ORG line, but one line is written.
    Further, addresses are [unsigned int] and wrap around, so that two
    consecutive lines can be further apart than 2. *)
Lemma first_line_not_encoded_without_org :
  List.length (instruction_lines no_org_program) = 2%nat
  /\ (exists out,
         assemble (Some no_org_program) no_stale_bytes true
         = mkOutcome 1 (map LineDump no_org_program) (Some out)
         /\ List.length out = 1%nat)
  /\ file (assemble (Some [ mkLINE "ORG" "0xFFFFFFFF" "";
                            mkLINE "" "EOP" "";
                            mkLINE "" "EOP" "" ]) no_stale_bytes true)
     = Some [ OutSplit 0xFFFFFFFF 0xF8 (SecondZero 0);
              OutSplit 1 0xF8 (SecondZero 2) ].
Proof.
  split; [reflexivity|]. split; [|reflexivity].
  eexists. split; reflexivity.
Qed.

(** A branch whose operand is a literal passes validation, and the
    encoding loop then writes nothing for it. *)
Example branch_with_literal_operand :
  assemble (Some [ mkLINE "ORG" "0x000" "";
                   mkLINE "" "BR" "0x04";
                   mkLINE "" "EOP" "" ]) no_stale_bytes true
  = mkOutcome 1
      [ LineDump (mkLINE "ORG" "0x000" "");
        LineDump (mkLINE "" "BR" "0x04");
        LineDump (mkLINE "" "EOP" "") ]
      (Some [ OutSplit 2 0xF8 (SecondZero 3) ]).
Proof. reflexivity. Qed.

(** C1 (amended). For a program in which some line after line 0 carries
    EOP, every operand after line 0 is empty, begins with [0x] or is a
    declared label, every mnemonic is known, label operands occur only
    on the five branch mnemonics and every branch has a declared label
    as operand, assembly succeeds and writes exactly one line for each
    line after line 0 (line 0 is left out whether or not it is an ORG
    line), in program order; line [k] of the file is the encoding of
    line [k + 1] of the program, with what its operand buffer holds
    from offset 2 on, and carries the address [base + 2 * k] modulo
    [2 ^ 32]. *)
Theorem one_output_line_per_line (lines : list LINE)
    (behind : nat -> string) :
  existsb eop_line (skipn 1 lines) = true ->
  (forall l, In l (skipn 1 lines) ->
             nonempty (operand l) = false
             \/ has_prefix "0x" (operand l) = true
             \/ known lines (operand l) = true) ->
  (forall l, In l (skipn 1 lines) ->
             opcode (get_opcode (operation l)) <> -1) ->
  (forall l, In l (skipn 1 lines) ->
             is_branch (operation l) = false ->
             has_prefix "0x" (operand l) = false ->
             known lines (operand l) = false) ->
  (forall l, In l (skipn 1 lines) ->
             is_branch (operation l) = true ->
             known lines (operand l) = true) ->
  let base := set_address lines in
  let tbl := labels (pass1 base lines) in
  exists out,
    assemble (Some lines) behind true
    = mkOutcome 1 (map LineDump lines) (Some out)
    /\ List.length out = List.length (skipn 1 lines)
    /\ forall k l,
        nth_error (skipn 1 lines) k = Some l ->
        exists o,
          nth_error out k = Some o
          /\ encode_line tbl (behind (S k)) (uint (base + 2 * Z.of_nat k)) l
             = Some o
          /\ out_addr o = uint (base + 2 * Z.of_nat k).
Proof.
  intros Heop Hoperands Hmnemonics Hlabels Hbranches base tbl.
  set (body := skipn 1 lines) in *.
  assert (Etbl : tbl = label_table base body) by apply pass1_labels.
  assert (E4 : flat_map (label_errors (known lines)) body = []).
  { apply flat_map_nil_intro. intros l Hl. unfold label_errors, symbolic.
    destruct (Hoperands l Hl) as [H|[H|H]]; rewrite H; simpl;
      rewrite ?andb_false_r; reflexivity. }
  assert (E5 : flat_map (operation_errors (known lines)) body = []).
  { apply flat_map_nil_intro. intros l Hl. unfold operation_errors.
    pose proof (Hmnemonics l Hl) as Hop. apply Z.eqb_neq in Hop.
    rewrite Hop. simpl.
    destruct (is_branch (operation l)) eqn:Eb; [reflexivity|]. simpl.
    unfold symbolic.
    destruct (has_prefix "0x" (operand l)) eqn:Ep;
      [now rewrite andb_false_r|].
    now rewrite (Hlabels l Hl Eb Ep), andb_false_r. }
  destruct (emitted_one_per_line tbl behind body 1 base
              (set_address_uint lines)) as [Hlen Hnth].
  { intros l Hl Hb. rewrite Etbl. unfold body.
    rewrite labelFound_table. now apply Hbranches. }
  exists (emitted tbl behind 1 base body). split; [|split].
  - rewrite assemble_closed. fold body base. rewrite Heop, E4, E5, Etbl.
    reflexivity.
  - exact Hlen.
  - intros k l Hk.
    destruct (encode_line_some tbl (behind (S k))
                (uint (base + 2 * Z.of_nat k)) l) as [o Ho].
    { intros Hb. rewrite Etbl. unfold body. rewrite labelFound_table.
      apply Hbranches; [|exact Hb]. now apply nth_error_In with k. }
    exists o. rewrite (Hnth k l Hk). repeat split; [exact Ho | exact Ho|].
    now apply encode_line_addr with tbl (behind (S k)) l.
Qed.

Lemma one_output_line_per_line_witness :
  exists out,
    assemble (Some example_program) no_stale_bytes true
    = mkOutcome 1 (map LineDump example_program) (Some out)
    /\ List.length out = 3%nat.
Proof.
  destruct (one_output_line_per_line example_program no_stale_bytes)
    as (out & H1 & H2 & _).
  - reflexivity.
  - intros l [<-|[<-|[<-|[]]]]; vm_compute; auto.
  - intros l [<-|[<-|[<-|[]]]]; discriminate.
  - intros l [<-|[<-|[<-|[]]]]; vm_compute; intros; congruence.
  - intros l [<-|[<-|[<-|[]]]]; vm_compute; intros; congruence.
  - exists out. split; [exact H1 | exact H2].
Defined.

(** *** Branch targets *)




(** *** Hexadecimal literals on opcodes without encoded operand *)

(** C6, at the failing input: WB is not a branch and has
    [addBoolean = false], [0x0A] is a well-formed hexadecimal literal
    and passes validation, but the second half of the line written for
    it is the unknown-label text, not the value 10. *)
Theorem hex_letter_literal_not_emitted :
  is_branch "WB" = false
  /\ addBoolean (get_opcode "WB") = false
  /\ hex_literal "0x0A" = true
  /\ assemble (Some hex_letter_program) no_stale_bytes true
     = mkOutcome 1 (map LineDump hex_letter_program)
         (Some [ OutSplit 0 0x30 (SecondUnknown "0x0A" "WB");
                 OutSplit 2 0xF8 (SecondZero 3) ]).
Proof. repeat split. Qed.

(** The same literal on an opcode with [addBoolean = true] goes through
    [strtoul] in base 16 and is emitted as 10. *)
Example hex_letter_literal_encoded_operand :
  file (assemble (Some [ mkLINE "ORG" "0x000" "";
                         mkLINE "" "WM" "0x0A";
                         mkLINE "" "EOP" "" ]) no_stale_bytes true)
  = Some [ OutWord 0 0x08 1 0x0A; OutSplit 2 0xF8 (SecondZero 3) ].
Proof. reflexivity. Qed.

(** A literal made of decimal digits only, that is not also a label, is
    copied to the file as it stands. *)
Lemma decimal_digit_literal_copied (tbl : list LABEL) (b : string) (a : Z)
    (l : LINE) :
  addBoolean (get_opcode (operation l)) = false ->
  has_prefix "0x" (operand l) = true ->
  skip_digits (advance 2 (operand l) "") = "" ->
  find_label (operand l) tbl = None ->
  encode_line tbl b a l
  = Some (OutSplit a (opcode (get_opcode (operation l)))
                   (SecondText (uint (a + 1)) (operand l))).
Proof.
  intros Hadd Hpre Hdig Hfind. unfold encode_line, encode_second.
  rewrite Hadd, Hfind, Hpre, Hdig.
  destruct (operand l); [discriminate | reflexivity].
Qed.

(** * Further properties *)

(** ** [process_file]: the format correction and the instruction table *)

(** X1. The names that the format correction of [process_file] takes
    for mnemonics are exactly the names that [get_opcode] knows. *)
Theorem format_correction_agrees_with_table (s : string) :
  is_mnemonic_label s = true <-> opcode (get_opcode s) <> -1.
Proof.
  split.
  - unfold is_mnemonic_label. intros H.
    repeat (apply orb_prop in H as [H|H]);
      apply String.eqb_eq in H; subst; discriminate.
  - intros H. apply get_opcode_known_inv in H. simpl in H.
    repeat (destruct H as [<-|H]; [reflexivity|]). contradiction.
Qed.

(** ** [process_file]: removing the lines without fields *)

Section Compaction.

Let blank : LINE := mkLINE "" "" "".

Lemma store_length (k : nat) (x : LINE) (arr : list LINE) :
  List.length (store k x arr) = List.length arr.
Proof.
  revert k. induction arr as [|h t IH]; intros [|k]; simpl; auto.
Qed.

Lemma firstn_store (k : nat) (x : LINE) (arr : list LINE) :
  (k < List.length arr)%nat ->
  firstn (S k) (store k x arr) = firstn k arr ++ [x].
Proof.
  revert k. induction arr as [|h t IH]; intros k Hk; simpl in Hk; [lia|].
  destruct k as [|k]; [reflexivity|].
  cbn [store]. rewrite firstn_cons, IH by lia. reflexivity.
Qed.

Lemma skipn_store (k n : nat) (x : LINE) (arr : list LINE) :
  (k < n)%nat -> skipn n (store k x arr) = skipn n arr.
Proof.
  revert k n. induction arr as [|h t IH]; intros k n Hk.
  - now destruct k.
  - destruct n as [|n]; [lia|]. destruct k as [|k]; [reflexivity|].
    cbn [store skipn]. apply IH. lia.
Qed.

Lemma firstn_snoc (i : nat) (arr : list LINE) :
  (i < List.length arr)%nat ->
  firstn (S i) arr = firstn i arr ++ [nth i arr blank].
Proof.
  revert i. induction arr as [|h t IH]; intros i Hi; simpl in Hi; [lia|].
  destruct i as [|i]; [reflexivity|].
  rewrite firstn_cons, IH by lia. reflexivity.
Qed.

Lemma nth_of_skipn (i : nat) (arr arr0 : list LINE) :
  skipn i arr = skipn i arr0 -> nth i arr blank = nth i arr0 blank.
Proof.
  revert arr arr0. induction i as [|i IH]; intros arr arr0 H.
  - simpl in H. now subst.
  - destruct arr as [|h t], arr0 as [|h0 t0]; simpl in *.
    + reflexivity.
    + rewrite <- (Nat.add_0_r i), <- nth_skipn, <- H. now destruct i.
    + rewrite <- (Nat.add_0_r i), <- nth_skipn, H. now destruct i.
    + now apply IH.
Qed.

Lemma skipn_tail_eq (i : nat) (arr arr0 : list LINE) :
  skipn i arr = skipn i arr0 -> skipn (S i) arr = skipn (S i) arr0.
Proof.
  intros H.
  replace (S i) with (1 + i)%nat by lia.
  now rewrite <- !skipn_skipn, H.
Qed.

Lemma filter_snoc (xs : list LINE) (x : LINE) :
  filter has_field (xs ++ [x])
  = filter has_field xs ++ (if has_field x then [x] else []).
Proof. rewrite filter_app. reflexivity. Qed.

(** The loop invariant: below [index] the array holds the lines with a
    field among the first [i] original lines; from [i] on it is
    untouched. *)
Lemma compact_loop_invariant (arr0 : list LINE) (steps : nat) :
  forall i index arr,
    (i + steps = List.length arr0)%nat ->
    List.length arr = List.length arr0 ->
    (index <= i)%nat ->
    firstn index arr = filter has_field (firstn i arr0) ->
    skipn i arr = skipn i arr0 ->
    firstn (fst (compact_loop steps i index arr))
           (snd (compact_loop steps i index arr))
    = filter has_field arr0.
Proof.
  induction steps as [|steps IH]; intros i index arr Hi Hlen Hle Hfst Hskp.
  - simpl. rewrite Hfst. rewrite firstn_all2 by lia. reflexivity.
  - cbn [compact_loop]. fold blank.
    assert (Hnth : nth i arr blank = nth i arr0 blank)
      by now apply nth_of_skipn.
    assert (Hnext : firstn (S i) arr0 = firstn i arr0 ++ [nth i arr0 blank])
      by (apply firstn_snoc; lia).
    rewrite Hnth.
    destruct (has_field (nth i arr0 blank)) eqn:Ef.
    + apply IH.
      * lia.
      * destruct (i =? index)%nat; [exact Hlen|]. now rewrite store_length.
      * lia.
      * rewrite Hnext, filter_snoc, Ef, <- Hfst.
        destruct (Nat.eqb_spec i index) as [<-|Hne].
        -- rewrite <- Hnth. apply firstn_snoc. lia.
        -- apply firstn_store. lia.
      * destruct (Nat.eqb_spec i index) as [_|Hne].
        -- now apply skipn_tail_eq.
        -- rewrite skipn_store by lia. now apply skipn_tail_eq.
    + apply IH; try assumption; try lia.
      * rewrite Hnext, filter_snoc, Ef, app_nil_r. exact Hfst.
      * now apply skipn_tail_eq.
Qed.

End Compaction.

Lemma compact_filter (arr : list LINE) :
  compact arr = filter has_field arr.
Proof.
  unfold compact.
  pose proof (compact_loop_invariant arr (List.length arr) 0 0 arr
                eq_refl eq_refl (le_n 0) eq_refl eq_refl) as H.
  destruct (compact_loop (List.length arr) 0 0 arr) as [index arr'].
  exact H.
Qed.

(** X2. The in-place loop that removes lines keeps exactly the lines
    with at least one non-empty field, in their order. *)
Theorem compact_is_filter (arr : list LINE) :
  compact arr = filter has_field arr.
Proof. apply compact_filter. Qed.

Lemma process_file_lines_checked (chunks : list string)
    (init : nat -> LINE) (filename : string) (lines : list LINE) (l : LINE) :
  fst (process_file (Some chunks) true init filename) = Some lines ->
  In l lines ->
  is_mnemonic_label (label l) = false /\ has_field l = true.
Proof.
  cbn [process_file negb fst]. intros [= <-]. rewrite compact_filter.
  intros Hl. apply filter_In in Hl as [Hl Hf]. split; [|exact Hf].
  apply in_map_iff in Hl as (l0 & <- & _). unfold format_correction.
  destruct (nonempty (label l0)) eqn:En; simpl.
  - destruct (is_mnemonic_label (label l0)) eqn:Em; [reflexivity | exact Em].
  - destruct (label l0); [reflexivity | discriminate].
Qed.

(** X3. Whatever the file and the initial content of the array, no line
    that [process_file] returns has a mnemonic in its label field, and
    every line has at least one non-empty field. *)
Theorem process_file_lines_invariant (chunks : list string)
    (init : nat -> LINE) (filename : string) (lines : list LINE) (l : LINE) :
  fst (process_file (Some chunks) true init filename) = Some lines ->
  In l lines ->
  is_mnemonic_label (label l) = false /\ has_field l = true.
Proof. apply process_file_lines_checked. Qed.

Lemma process_file_lines_invariant_witness :
  is_mnemonic_label (label (mkLINE "" "EOP" "")) = false
  /\ has_field (mkLINE "" "EOP" "") = true.
Proof.
  apply (process_file_lines_invariant ["EOP"] zeroed "script.asm"
           [mkLINE "" "EOP" ""] (mkLINE "" "EOP" "")).
  - reflexivity.
  - now left.
Defined.

(** ** [process_file]: comments and blank lines *)

Lemma strip_comment_cut (s t : string) :
  strip_comment (s ++ String ";" t)%string = strip_comment s.
Proof.
  induction s as [|c s IH]; simpl; [reflexivity|].
  destruct (c =? ";")%char; [reflexivity | now rewrite IH].
Qed.

Lemma read_loop_same_clean (init : nat -> LINE) (xs ys : list string) :
  map clean xs = map clean ys ->
  forall n, read_loop init xs n = read_loop init ys n.
Proof.
  revert ys. induction xs as [|x xs IH]; intros [|y ys] H n;
    try discriminate; [reflexivity|].
  injection H as Hxy Hrest. cbn [read_loop]. rewrite Hxy.
  destruct (negb (nonempty (clean y))); [now apply IH|].
  f_equal. now apply IH.
Qed.

(** X4. Whatever stands in a line from the first [;] on is ignored. *)
Theorem comment_text_ignored (before after : list string) (s t : string)
    (malloc_ok : bool) (init : nat -> LINE) (filename : string) :
  process_file (Some (before ++ (s ++ String ";" t)%string :: after))
               malloc_ok init filename
  = process_file (Some (before ++ s :: after)) malloc_ok init filename.
Proof.
  unfold process_file. destruct malloc_ok; [|reflexivity]. cbn [negb].
  rewrite (read_loop_same_clean init
             (before ++ (s ++ String ";" t)%string :: after)
             (before ++ s :: after)); [reflexivity|].
  rewrite !map_app. cbn [map]. unfold clean at 2.
  rewrite strip_comment_cut. reflexivity.
Qed.

Lemma all_space_skip_space (s : string) :
  all_space s = true -> skip_space s = "".
Proof.
  induction s as [|c s IH]; simpl; [reflexivity|].
  intros H. apply andb_prop in H as [Hc Hs]. rewrite Hc. now apply IH.
Qed.

Lemma all_space_skip_blanks (s : string) :
  all_space s = true -> all_space (skip_blanks s) = true.
Proof.
  induction s as [|c s IH]; simpl; [reflexivity|].
  intros H. destruct ((c =? " ")%char || (c =? "009")%char); [|exact H].
  apply andb_prop in H as [_ Hs]. now apply IH.
Qed.

Lemma all_space_drop_trailing (s : string) :
  all_space s = true -> all_space (drop_trailing s) = true.
Proof.
  induction s as [|c s IH]; simpl; [reflexivity|].
  intros H. apply andb_prop in H as [Hc Hs].
  destruct (trailing c && negb (nonempty (drop_trailing s)));
    [reflexivity|].
  simpl. rewrite Hc. now apply IH.
Qed.

Lemma all_space_clean (chunk : string) :
  all_space (strip_comment chunk) = true -> all_space (clean chunk) = true.
Proof.
  intros H. unfold clean. apply all_space_skip_blanks in H.
  destruct (skip_blanks (strip_comment chunk)) as [|c s]; [reflexivity|].
  simpl in *. apply andb_prop in H as [Hc Hs]. rewrite Hc.
  now apply all_space_drop_trailing.
Qed.

Lemma blank_line_slot (init : nat -> LINE) (chunk : string)
    (rest : list string) (n : nat) :
  all_space (strip_comment chunk) = true ->
  nonempty (clean chunk) = true ->
  read_loop init (chunk :: rest) n = init n :: read_loop init rest (S n).
Proof.
  intros Hsp Hne. cbn [read_loop]. rewrite Hne. cbn [negb].
  unfold sscanf3. rewrite (all_space_skip_space _ (all_space_clean _ Hsp)).
  reflexivity.
Qed.

(** X5. A line without any token before its comment that is not empty
    after trimming (a single line feed, for one) is not skipped: it
    takes the next array element and leaves in it what the memory held. *)
Theorem blank_line_keeps_memory (init : nat -> LINE) (chunk : string)
    (rest : list string) (n : nat) :
  all_space (strip_comment chunk) = true ->
  nonempty (clean chunk) = true ->
  read_loop init (chunk :: rest) n = init n :: read_loop init rest (S n).
Proof. apply blank_line_slot. Qed.

Lemma blank_line_keeps_memory_witness :
  read_loop (fun _ => mkLINE "old" "text" "here") ["  " ++ String "010" ""]%string 0
  = [mkLINE "old" "text" "here"].
Proof.
  apply (blank_line_keeps_memory (fun _ => mkLINE "old" "text" "here")
           ("  " ++ String "010" "")%string [] 0); reflexivity.
Defined.





(** ** [process_file]: reading back a written line *)

Section Tokens.

Lemma not_space_not_blank (c : ascii) :
  isspace c = false -> (c =? " ")%char || (c =? "009")%char = false.
Proof.
  destruct c as [[] [] [] [] [] [] [] []]; try reflexivity; discriminate.
Qed.

Lemma not_space_not_trailing (c : ascii) :
  isspace c = false -> trailing c = false.
Proof.
  destruct c as [[] [] [] [] [] [] [] []]; try reflexivity; discriminate.
Qed.

Lemma word_chars_head (c : ascii) (s : string) :
  word_chars (String c s) = true ->
  isspace c = false /\ (c =? ";")%char = false /\ word_chars s = true.
Proof.
  simpl. intros H. apply andb_prop in H as [H Hs].
  apply andb_prop in H as [H1 H2].
  apply negb_true_iff in H1, H2. auto.
Qed.

Lemma strip_comment_word (w r : string) :
  word_chars w = true ->
  strip_comment (w ++ r)%string = (w ++ strip_comment r)%string.
Proof.
  induction w as [|c w IH]; intros H; [reflexivity|].
  apply word_chars_head in H as (_ & Hc & Hw).
  simpl. rewrite Hc. now rewrite IH.
Qed.

Lemma drop_trailing_word (w : string) :
  word_chars w = true -> drop_trailing w = w.
Proof.
  induction w as [|c w IH]; intros H; [reflexivity|].
  apply word_chars_head in H as (Hc & _ & Hw).
  simpl. rewrite (not_space_not_trailing _ Hc), IH by assumption.
  reflexivity.
Qed.

Lemma drop_trailing_word_newline (w : string) :
  word_chars w = true ->
  drop_trailing (w ++ String "010" "")%string = w.
Proof.
  induction w as [|c w IH]; intros H; [reflexivity|].
  apply word_chars_head in H as (Hc & _ & Hw).
  simpl. rewrite (not_space_not_trailing _ Hc), IH by assumption.
  reflexivity.
Qed.

Lemma drop_trailing_prefix (x u : string) :
  nonempty (drop_trailing u) = true ->
  drop_trailing (x ++ u)%string = (x ++ drop_trailing u)%string.
Proof.
  intros Hu. induction x as [|c x IH]; [reflexivity|].
  simpl. rewrite IH.
  assert (Hne : nonempty (x ++ drop_trailing u)%string = true).
  { destruct x; [exact Hu | reflexivity]. }
  rewrite Hne, andb_false_r. reflexivity.
Qed.

Lemma read_token_word (w r : string) (sp : ascii) :
  word_chars w = true -> isspace sp = true ->
  read_token (w ++ String sp r)%string = (w, String sp r).
Proof.
  intros Hw Hsp. induction w as [|c w IH].
  - simpl. now rewrite Hsp.
  - apply word_chars_head in Hw as (Hc & _ & Hw).
    simpl. rewrite Hc, IH by assumption. reflexivity.
Qed.

Lemma read_token_last_word (w : string) :
  word_chars w = true -> read_token w = (w, "").
Proof.
  induction w as [|c w IH]; intros Hw; [reflexivity|].
  apply word_chars_head in Hw as (Hc & _ & Hw).
  simpl. rewrite Hc, IH by assumption. reflexivity.
Qed.

Lemma skip_space_before_word (w r : string) :
  is_word w = true ->
  skip_space (w ++ r)%string = (w ++ r)%string
  /\ nonempty (w ++ r)%string = true.
Proof.
  unfold is_word. intros H. apply andb_prop in H as [Hne Hw].
  destruct w as [|c w]; [discriminate|].
  apply word_chars_head in Hw as (Hc & _ & _).
  simpl. now rewrite Hc.
Qed.

Lemma is_word_chars (w : string) : is_word w = true -> word_chars w = true.
Proof. unfold is_word. intros H. now apply andb_prop in H as [_ H]. Qed.

Lemma append_assoc3 (x y z : string) :
  ((x ++ y) ++ z)%string = (x ++ (y ++ z))%string.
Proof. induction x as [|c x IH]; simpl; [reflexivity | now rewrite IH]. Qed.

Lemma strip_comment_space (r : string) :
  strip_comment (String " " r) = String " " (strip_comment r).
Proof. reflexivity. Qed.

Lemma drop_trailing_line (x w : string) :
  is_word w = true ->
  drop_trailing (x ++ (w ++ String "010" ""))%string = (x ++ w)%string.
Proof.
  intros H. pose proof (is_word_chars _ H) as Hw.
  rewrite drop_trailing_prefix;
    rewrite drop_trailing_word_newline by assumption; [reflexivity|].
  unfold is_word in H. now apply andb_prop in H as [H _].
Qed.

(** What [sscanf] gets for a written line: the line without its line
    feed. *)
Lemma clean_render_line (l : LINE) :
  three_words l = true ->
  clean (render_line l)
  = (label l ++ " " ++ operation l ++ " " ++ operand l)%string.
Proof.
  unfold three_words, render_line, clean. intros H.
  apply andb_prop in H as [H H3]. apply andb_prop in H as [H1 H2].
  pose proof (is_word_chars _ H1) as W1.
  pose proof (is_word_chars _ H2) as W2.
  pose proof (is_word_chars _ H3) as W3.
  set (a := label l) in *. set (b := operation l) in *.
  set (c := operand l) in *.
  change (a ++ " " ++ b ++ " " ++ c ++ String "010" "")%string
    with (a ++ String " " (b ++ String " " (c ++ String "010" "")))%string.
  change (a ++ " " ++ b ++ " " ++ c)%string
    with (a ++ String " " (b ++ String " " c))%string.
  rewrite (strip_comment_word a) by assumption.
  rewrite strip_comment_space, (strip_comment_word b) by assumption.
  rewrite strip_comment_space, (strip_comment_word c) by assumption.
  cbn [strip_comment]. replace ("010" =? ";")%char with false by reflexivity.
  destruct a as [|c0 a]; [discriminate|].
  pose proof (word_chars_head _ _ W1) as (Hc0 & _ & _).
  cbn [append skip_blanks]. rewrite (not_space_not_blank _ Hc0).
  cbn [trim_end]. f_equal.
  assert (Hassoc : forall t : string,
             (a ++ String " " (b ++ String " " t))%string
             = ((a ++ String " " (b ++ " ")) ++ t)%string).
  { intros t. rewrite append_assoc3. cbn [append].
    now rewrite append_assoc3. }
  rewrite (Hassoc (c ++ String "010" "")%string), (Hassoc c).
  now apply drop_trailing_line.
Qed.

(** [sscanf] finds the three tokens again. *)
Lemma sscanf3_three_words (a b c : string) (old : LINE) :
  is_word a = true -> is_word b = true -> is_word c = true ->
  sscanf3 (a ++ String " " (b ++ String " " c))%string old = mkLINE a b c.
Proof.
  intros Ha Hb Hc. unfold sscanf3.
  destruct (skip_space_before_word a (String " " (b ++ String " " c)) Ha)
    as [-> ->].
  cbn [negb].
  rewrite read_token_word by (try apply is_word_chars; auto).
  cbn [skip_space]. replace (isspace " ") with true by reflexivity.
  destruct (skip_space_before_word b (String " " c) Hb) as [-> ->].
  cbn [negb].
  rewrite read_token_word by (try apply is_word_chars; auto).
  cbn [skip_space]. replace (isspace " ") with true by reflexivity.
  destruct (skip_space_before_word c "" Hc) as [Hs Hn].
  assert (Ec : (c ++ "")%string = c).
  { clear. induction c as [|x c IH]; simpl; [reflexivity | now rewrite IH]. }
  rewrite Ec in Hs, Hn. rewrite Hs, Hn. cbn [negb].
  rewrite read_token_last_word by now apply is_word_chars.
  reflexivity.
Qed.

End Tokens.

Lemma read_loop_rendered (init : nat -> LINE) (ls : list LINE) :
  forallb three_words ls = true ->
  forall n, read_loop init (map render_line ls) n = ls.
Proof.
  induction ls as [|l ls IH]; intros H n; [reflexivity|].
  simpl in H. apply andb_prop in H as [Hl Hls].
  cbn [map read_loop]. rewrite (clean_render_line l Hl).
  unfold three_words in Hl.
  apply andb_prop in Hl as [Hl H3]. apply andb_prop in Hl as [H1 H2].
  change (label l ++ " " ++ operation l ++ " " ++ operand l)%string
    with (label l ++ String " " (operation l ++ String " " (operand l)))%string.
  rewrite (proj2 (skip_space_before_word (label l) _ H1)). cbn [negb].
  rewrite sscanf3_three_words by assumption.
  rewrite IH by assumption. now destruct l.
Qed.

Lemma format_correction_has_field (l : LINE) :
  nonempty (label l) = true -> has_field (format_correction l) = true.
Proof.
  intros H. unfold format_correction, has_field. rewrite H.
  destruct (is_mnemonic_label (label l)); cbn; rewrite H; reflexivity.
Qed.

(** X7. Lines written as three tokens separated by single spaces and
    ended by a line feed are read back as they were written, whatever
    the array held, up to the format correction: a line whose first
    token is a mnemonic comes back shifted, without its third token. *)
Theorem written_lines_read_back (ls : list LINE) (init : nat -> LINE)
    (filename : string) :
  forallb three_words ls = true ->
  process_file (Some (map render_line ls)) true init filename
  = (Some (map format_correction ls), []).
Proof.
  intros H. unfold process_file. cbn [negb].
  rewrite read_loop_rendered, compact_filter by assumption.
  do 2 f_equal.
  induction ls as [|l ls IH]; [reflexivity|].
  simpl in H. apply andb_prop in H as [Hl Hls]. cbn [map filter].
  rewrite format_correction_has_field, IH; [reflexivity | assumption |].
  unfold three_words, is_word in Hl.
  apply andb_prop in Hl as [Hl _]. apply andb_prop in Hl as [Hl _].
  now apply andb_prop in Hl as [Hl _].
Qed.

Lemma written_lines_read_back_witness :
  process_file
    (Some (map render_line [ mkLINE "START" "WB" "0x05";
                             mkLINE "BR" "START" "extra" ]))
    true (fun _ => mkLINE "old" "text" "here") "script.asm"
  = (Some [ mkLINE "START" "WB" "0x05"; mkLINE "" "BR" "START" ], []).
Proof.
  apply (written_lines_read_back
           [ mkLINE "START" "WB" "0x05"; mkLINE "BR" "START" "extra" ]
           (fun _ => mkLINE "old" "text" "here") "script.asm").
  reflexivity.
Defined.

Lemma mnemonic_is_word (m : string) :
  is_mnemonic_label m = true -> is_word m = true.
Proof.
  unfold is_mnemonic_label. intros H.
  repeat (apply orb_prop in H as [H|H]);
    apply String.eqb_eq in H; subst; reflexivity.
Qed.

(** X8. An instruction line without label, a mnemonic and one more
    token, is not skipped and is read as empty label, mnemonic and
    operand, whatever the array element held before. *)
Theorem unlabelled_instruction_read (m x : string) (old : LINE) :
  is_mnemonic_label m = true ->
  is_word x = true ->
  let chunk := (m ++ " " ++ x ++ String "010" "")%string in
  nonempty (clean chunk) = true
  /\ format_correction (sscanf3 (clean chunk) old) = mkLINE "" m x.
Proof.
  intros Hm Hx chunk.
  pose proof (mnemonic_is_word m Hm) as Hw.
  pose proof (is_word_chars _ Hw) as Wm.
  pose proof (is_word_chars _ Hx) as Wx.
  assert (Hclean : clean chunk = (m ++ String " " x)%string).
  { unfold chunk, clean.
    change (m ++ " " ++ x ++ String "010" "")%string
      with (m ++ String " " (x ++ String "010" ""))%string.
    rewrite (strip_comment_word m) by assumption.
    rewrite strip_comment_space, (strip_comment_word x) by assumption.
    cbn [strip_comment].
    replace ("010" =? ";")%char with false by reflexivity.
    destruct m as [|c0 m]; [discriminate|].
    pose proof (word_chars_head _ _ Wm) as (Hc0 & _ & _).
    cbn [append skip_blanks]. rewrite (not_space_not_blank _ Hc0).
    cbn [trim_end]. f_equal.
    change (m ++ String " " (x ++ String "010" ""))%string
      with (m ++ (" " ++ (x ++ String "010" "")))%string.
    rewrite <- append_assoc3, drop_trailing_line by assumption.
    now rewrite append_assoc3. }
  rewrite Hclean.
  destruct (skip_space_before_word m (String " " x) Hw) as [Hs Hn].
  split; [exact Hn|].
  unfold sscanf3. rewrite Hs, Hn. cbn [negb].
  rewrite read_token_word by (auto; reflexivity).
  cbn [skip_space]. replace (isspace " ") with true by reflexivity.
  destruct (skip_space_before_word x "" Hx) as [Hs' Hn'].
  assert (Ex : (x ++ "")%string = x).
  { clear. induction x as [|c x IH]; simpl; [reflexivity | now rewrite IH]. }
  rewrite Ex in Hs', Hn'. rewrite Hs', Hn'. cbn [negb].
  rewrite read_token_last_word by assumption.
  cbn [skip_space nonempty negb].
  unfold format_correction. cbn [label operation].
  unfold is_word in Hw. apply andb_prop in Hw as [Hne _].
  now rewrite Hne, Hm.
Qed.

Lemma unlabelled_instruction_read_witness :
  format_correction
    (sscanf3 (clean ("WB" ++ " " ++ "0x05" ++ String "010" "")%string)
             (mkLINE "old" "text" "here"))
  = mkLINE "" "WB" "0x05".
Proof.
  apply (unlabelled_instruction_read "WB" "0x05" (mkLINE "old" "text" "here"));
    reflexivity.
Defined.

(** ** [assemble] on the lines of [process_file] *)

Lemma eop_line_after_correction (l : LINE) :
  is_mnemonic_label (label l) = false ->
  eop_line l = (operation l == "EOP").
Proof.
  intros H. unfold eop_line.
  destruct (String.eqb_spec (label l) "EOP") as [E|_]; [|reflexivity].
  rewrite E in H. discriminate.
Qed.

(** X9. On the lines that [process_file] returns, the label field is
    never EOP, so that the EOP check depends on the operation fields
    alone: the program stops with the missing-EOP error exactly when no
    line after line 0 has EOP as its operation. *)
Theorem script_eop_check (chunks : list string) (init : nat -> LINE)
    (init_behind : nat -> string) (writable : bool) (lines : list LINE) :
  fst (process_file (Some chunks) true init "script.asm") = Some lines ->
  (forall l, In l lines -> label l <> "EOP")
  /\ (In NoEOPFound
         (stdout (assemble_script (Some chunks) true init init_behind
                                  writable))
      <-> forall l, In l (skipn 1 lines) -> operation l <> "EOP").
Proof.
  intros Hpf.
  assert (Hlab : forall l, In l lines -> is_mnemonic_label (label l) = false).
  { intros l Hl.
    now apply (process_file_lines_checked chunks init "script.asm" lines). }
  split.
  - intros l Hl E. specialize (Hlab l Hl). rewrite E in Hlab. discriminate.
  - unfold assemble_script. rewrite Hpf.
    assert (Hbody : forall l, In l (skipn 1 lines) -> In l lines).
    { intros l Hl. destruct lines; [contradiction | now right]. }
    destruct (existsb eop_line (skipn 1 lines)) eqn:Heop.
    + pose proof (stdout_after_eop_check lines
                    (script_behind chunks init init_behind) writable Heop)
        as Hnot.
      split; [contradiction|]. intros Hno. exfalso.
      apply existsb_exists in Heop as (l & Hl & E).
      rewrite eop_line_after_correction in E by auto.
      apply String.eqb_eq in E. exact (Hno l Hl E).
    + split.
      * intros _ l Hl E.
        assert (existsb eop_line (skipn 1 lines) = true).
        { apply existsb_exists. exists l. split; [exact Hl|].
          rewrite eop_line_after_correction by auto.
          now apply String.eqb_eq. }
        congruence.
      * intros _. rewrite assemble_closed, Heop. cbn [negb stdout].
        apply in_or_app. right. now left.
Qed.

Lemma script_eop_check_witness :
  In NoEOPFound
     (stdout (assemble_script (Some ["ORG 0"; "WB 0x05"]) true zeroed
                              no_stale_bytes true)).
Proof.
  apply (proj2 (script_eop_check ["ORG 0"; "WB 0x05"] zeroed no_stale_bytes
                  true
                  [ mkLINE "ORG" "0" ""; mkLINE "" "WB" "0x05" ] eq_refl)).
  intros l [<-|[]]. discriminate.
Defined.

(** *** The operand buffers behind the lines of [process_file] *)

Lemma read_slots_lines (init : nat -> LINE) (init_behind : nat -> string)
    (chunks : list string) :
  forall n,
    map fst (read_slots init init_behind chunks n) = read_loop init chunks n.
Proof.
  induction chunks as [|chunk rest IH]; intros n; [reflexivity|].
  cbn [read_slots read_loop].
  destruct (negb (nonempty (clean chunk))); [apply IH|].
  cbn [map fst]. now rewrite IH.
Qed.

Lemma correct_slot_lines (arr : list (LINE * string)) :
  map fst (map correct_slot arr) = map format_correction (map fst arr).
Proof.
  rewrite !map_map. apply map_ext. now intros [l tail].
Qed.

Lemma store_slot_lines (arr : list (LINE * string)) :
  forall index x,
    map fst (store_slot index x arr) = store index x (map fst arr).
Proof.
  induction arr as [|[l tail] arr IH]; intros [|index] x; try reflexivity.
  cbn [store_slot store map fst]. now rewrite IH.
Qed.

Lemma compact_slots_loop_lines (steps : nat) :
  forall i index arr,
    compact_loop steps i index (map fst arr)
    = (fst (compact_slots_loop steps i index arr),
       map fst (snd (compact_slots_loop steps i index arr))).
Proof.
  induction steps as [|steps IH]; intros i index arr; [reflexivity|].
  cbn [compact_loop compact_slots_loop].
  assert (E : nth i (map fst arr) (mkLINE "" "" "")
              = fst (nth i arr (mkLINE "" "" "", "")))
    by apply (map_nth fst arr (mkLINE "" "" "", "") i).
  rewrite !E.
  destruct (has_field (fst (nth i arr (mkLINE "" "" "", "")))); [|apply IH].
  destruct (i =? index)%nat; [apply IH|].
  rewrite <- store_slot_lines. apply IH.
Qed.

(** The lines of the slots are the lines that [process_file] returns. *)
Lemma script_slots_lines (chunks : list string) (init : nat -> LINE)
    (init_behind : nat -> string) (filename : string) :
  fst (process_file (Some chunks) true init filename)
  = Some (map fst (script_slots chunks init init_behind)).
Proof.
  cbn [process_file negb fst]. f_equal.
  unfold script_slots, compact, compact_slots.
  rewrite <- (read_slots_lines init init_behind chunks 0).
  rewrite <- correct_slot_lines.
  set (arr := map correct_slot (read_slots init init_behind chunks 0)).
  rewrite compact_slots_loop_lines, length_map.
  destruct (compact_slots_loop (List.length arr) 0 0 arr) as [index arr'].
  cbn [fst snd]. now rewrite firstn_map.
Qed.

(** X24. After the format correction of [BR X 0x1234] the operand is
    [X] and its buffer still holds [1234] from offset 2 on: the first
    byte of the branch is [0x18 | 0x12]. *)
Theorem stale_bytes_after_correction :
  assemble_script (Some ["ORG 0"; "X WB 0x05"; "BR X 0x1234"; "EOP"]) true
                  zeroed no_stale_bytes true
  = mkOutcome 1
      [ LineDump (mkLINE "ORG" "0" "");
        LineDump (mkLINE "X" "WB" "0x05");
        LineDump (mkLINE "" "BR" "X");
        LineDump (mkLINE "" "EOP" "") ]
      (Some [ OutSplit 0 0x30 (SecondText 1 "0x05");
              OutWord 2 0x1a 3 0;
              OutSplit 4 0xF8 (SecondZero 5) ]).
Proof. reflexivity. Qed.

(** X25. A line without tokens takes an array element; when the lines
    behind it move up, the empty operand of a bare WM is copied over
    the operand [0x05] that the line before left in the element, and
    the second byte of WM is 5. *)
Theorem stale_bytes_after_compaction :
  assemble_script
    (Some ["ORG 0"; String "010" ""; "WB 0x05"; "WM"; "EOP"]) true
    zeroed no_stale_bytes true
  = mkOutcome 1
      [ LineDump (mkLINE "ORG" "0" "");
        LineDump (mkLINE "" "WB" "0x05");
        LineDump (mkLINE "" "WM" "");
        LineDump (mkLINE "" "EOP" "") ]
      (Some [ OutSplit 0 0x30 (SecondText 1 "0x05");
              OutWord 2 0x08 3 5;
              OutSplit 4 0xF8 (SecondZero 5) ]).
Proof. reflexivity. Qed.

(** ** [assemble]: status, file and validation *)

Lemma label_errors_nil_iff (lines ls : list LINE) :
  flat_map (label_errors (known lines)) ls = []
  <-> forall l, In l ls -> unknown_operand lines l = false.
Proof.
  rewrite label_errors_filter. split.
  - intros H l Hl. destruct (unknown_operand lines l) eqn:E; [|reflexivity].
    assert (Hin : In l (filter (unknown_operand lines) ls))
      by (apply filter_In; auto).
    destruct (filter (unknown_operand lines) ls); [contradiction|discriminate].
  - intros H. induction ls as [|l ls IH]; [reflexivity|].
    cbn [filter]. rewrite (H l) by now left.
    apply IH. intros l' Hl'. apply H. now right.
Qed.

Lemma operation_errors_nil_iff (found : string -> bool) (l : LINE) :
  operation_errors found l = []
  <-> opcode (get_opcode (operation l)) <> -1
      /\ (is_branch (operation l) = false ->
          symbolic (operand l) = true -> found (operand l) = false).
Proof.
  unfold operation_errors.
  destruct (Z.eqb_spec (opcode (get_opcode (operation l))) (-1)) as [E|E].
  - split; [discriminate | intros [H _]; contradiction].
  - destruct (is_branch (operation l)), (symbolic (operand l)),
      (found (operand l)); cbn; split; intros H;
      try reflexivity; try discriminate; try (split; [exact E|]);
      try congruence; destruct H as [_ H]; now specialize (H eq_refl eq_refl).
Qed.

(** What holds of a program for which a file is written. *)
Lemma assemble_file_iff (lines : list LINE)
    (behind : nat -> string) (writable : bool) :
  (exists out, file (assemble (Some lines) behind writable) = Some out)
  <-> writable = true
      /\ existsb eop_line (skipn 1 lines) = true
      /\ (forall l, In l (skipn 1 lines) -> unknown_operand lines l = false)
      /\ (forall l, In l (skipn 1 lines) ->
                    operation_errors (known lines) l = []).
Proof.
  rewrite assemble_closed. set (body := skipn 1 lines).
  rewrite <- label_errors_nil_iff. fold body.
  destruct (existsb eop_line body); cbn [negb].
  2:{ split; [intros [out H]; discriminate | intros (_ & H & _); discriminate]. }
  destruct (flat_map (label_errors (known lines)) body) eqn:E4;
    cbn [is_nil negb].
  2:{ split; [intros [out H]; discriminate
             | intros (_ & _ & H & _); discriminate]. }
  destruct (flat_map (operation_errors (known lines)) body) eqn:E5;
    cbn [is_nil negb].
  2:{ split; [intros [out H]; discriminate|].
      intros (_ & _ & _ & H).
      rewrite (flat_map_nil_intro _ _ H) in E5. discriminate. }
  destruct writable; cbn [negb file].
  - split; [|eauto]. intros _. repeat split.
    now apply flat_map_nil_inv.
  - split; [intros [out H]; discriminate | intros (H & _); discriminate].
Qed.

(** X10. [assemble] returns 1 exactly when it has written the file, and
    0 otherwise; when the source could not be read or the output file
    cannot be opened, no file is written. *)
Theorem status_tells_file (source : option (list LINE))
    (behind : nat -> string) (writable : bool) :
  (status (assemble source behind writable) = 1
   <-> exists out, file (assemble source behind writable) = Some out)
  /\ (status (assemble source behind writable) = 0
      <-> file (assemble source behind writable) = None)
  /\ (source = None \/ writable = false ->
      file (assemble source behind writable) = None).
Proof.
  destruct source as [lines|].
  2:{ cbn. repeat split; try discriminate; auto.
      intros [out H]. discriminate. }
  rewrite assemble_closed.
  destruct (negb (existsb eop_line (skipn 1 lines)));
    [cbn; repeat split; try discriminate; auto;
     intros [out H]; discriminate|].
  destruct (negb (is_nil (flat_map (label_errors (known lines))
                                   (skipn 1 lines))));
    [cbn; repeat split; try discriminate; auto;
     intros [out H]; discriminate|].
  destruct (negb (is_nil (flat_map (operation_errors (known lines))
                                   (skipn 1 lines))));
    [cbn; repeat split; try discriminate; auto;
     intros [out H]; discriminate|].
  destruct writable; cbn [negb status file].
  - repeat split; try discriminate; eauto.
    intros [H|H]; discriminate.
  - repeat split; try discriminate; auto. intros [out H]. discriminate.
Qed.

Lemma status_tells_file_witness :
  file (assemble (Some example_program) no_stale_bytes false) = None.
Proof.
  apply (proj2 (proj2 (status_tells_file (Some example_program)
                              no_stale_bytes false))).
  now right.
Defined.

Lemma console_on_success (lines : list LINE)
    (behind : nat -> string) (writable : bool)
    (out : list out_line) :
  file (assemble (Some lines) behind writable) = Some out ->
  stdout (assemble (Some lines) behind writable) = map LineDump lines.
Proof. intros H. apply assemble_file in H as [_ ->]. reflexivity. Qed.

(** X11. A file is written exactly when the output can be opened, some
    line after line 0 carries EOP, and every line after line 0 has a
    known mnemonic and an operand that is empty, or begins with [0x],
    or is a declared label on a branch mnemonic.  The console then
    shows the dump of the lines and nothing else: the second
    invalid-instruction message, in the encoding loop, is never
    printed. *)
Theorem assemble_succeeds_iff (lines : list LINE)
    (behind : nat -> string) (writable : bool) :
  ((exists out, file (assemble (Some lines) behind writable) = Some out)
   <-> writable = true
       /\ existsb eop_line (skipn 1 lines) = true
       /\ forall l, In l (skipn 1 lines) ->
            opcode (get_opcode (operation l)) <> -1
            /\ (nonempty (operand l) = false
                \/ has_prefix "0x" (operand l) = true
                \/ known lines (operand l) = true
                   /\ is_branch (operation l) = true))
  /\ (forall out,
         file (assemble (Some lines) behind writable) = Some out ->
         stdout (assemble (Some lines) behind writable) = map LineDump lines).
Proof.
  split; [|apply console_on_success].
  rewrite assemble_file_iff. split.
  - intros (Hw & Heop & Hunk & Hops).
    split; [exact Hw|]. split; [exact Heop|]. intros l Hl.
    pose proof (proj1 (operation_errors_nil_iff _ _) (Hops l Hl))
      as [Hop Hlab].
    split; [exact Hop|].
    specialize (Hunk l Hl). unfold unknown_operand in Hunk.
    unfold symbolic in Hlab.
    destruct (nonempty (operand l)); [|now left].
    destruct (has_prefix "0x" (operand l)); [now right; left|].
    destruct (known lines (operand l)); [|discriminate].
    right; right. split; [reflexivity|].
    destruct (is_branch (operation l)); [reflexivity|].
    now specialize (Hlab eq_refl eq_refl).
  - intros (Hw & Heop & Hall).
    split; [exact Hw|]. split; [exact Heop|]. split.
    + intros l Hl. destruct (Hall l Hl) as [_ H]. unfold unknown_operand.
      destruct H as [H|[H|[H _]]]; rewrite H; cbn;
        rewrite ?andb_false_r; reflexivity.
    + intros l Hl. destruct (Hall l Hl) as [Hop H].
      apply operation_errors_nil_iff. split; [exact Hop|].
      unfold symbolic. intros Hb Hs.
      apply andb_prop in Hs as [Hne Hpre]. apply negb_true_iff in Hpre.
      destruct H as [H|[H|[_ H]]]; congruence.
Qed.

Lemma assemble_succeeds_iff_witness :
  stdout (assemble (Some example_program) no_stale_bytes true)
  = map LineDump example_program.
Proof.
  apply (proj2 (assemble_succeeds_iff example_program no_stale_bytes true)
               [ OutSplit 0 48 (SecondText 1 "0x05");
                 OutWord 2 24 3 4; OutSplit 4 248 (SecondZero 5) ]).
  reflexivity.
Defined.

(** ** [assemble]: the label table *)

Lemma label_table_In (ls : list LINE) :
  forall a lb,
    uint a = a ->
    (In lb (label_table a ls)
     <-> exists k l,
        nth_error ls k = Some l /\ nonempty (label l) = true
        /\ lb = mkLABEL (label l) (uint (a + 2 * Z.of_nat k))).
Proof.
  induction ls as [|x ls IH]; intros a lb Ha.
  - split; [contradiction|]. intros (k & l & H & _). destruct k; discriminate.
  - cbn [label_table]. rewrite in_app_iff, (IH (uint (a + 2))) by apply uint_idem.
    split.
    + intros [H|(k & l & Hk & Hne & ->)].
      * destruct (nonempty (label x)) eqn:Ex; [|contradiction].
        destruct H as [<-|[]]. exists 0%nat, x.
        repeat split; [exact Ex|]. now rewrite Z.add_0_r, Ha.
      * exists (S k), l. repeat split; [exact Hk | exact Hne|].
        rewrite uint_step. do 2 f_equal. lia.
    + intros (k & l & Hk & Hne & ->). destruct k as [|k]; cbn in Hk.
      * injection Hk as ->. left. rewrite Hne. left.
        now rewrite Z.add_0_r, Ha.
      * right. exists k, l. repeat split; [exact Hk | exact Hne|].
        rewrite uint_step. do 2 f_equal. lia.
Qed.

(** X12. The label table holds, in program order and with duplicates,
    the non-empty label fields of the lines after line 0; an entry is in
    the table exactly when it pairs the label of such a line, number
    [k] after line 0, with the address [base + 2 * k] modulo [2 ^ 32]. *)
Theorem label_table_contents (lines : list LINE) :
  let base := set_address lines in
  map lname (labels (pass1 base lines)) = declared lines
  /\ forall lb,
      In lb (labels (pass1 base lines))
      <-> exists k l,
          nth_error (skipn 1 lines) k = Some l
          /\ nonempty (label l) = true
          /\ lb = mkLABEL (label l) (uint (base + 2 * Z.of_nat k)).
Proof.
  intros base. rewrite pass1_labels. split.
  - apply label_table_names.
  - intros lb. apply label_table_In. apply set_address_uint.
Qed.

Lemma find_label_first (ls : list LINE) :
  forall a j lj,
    uint a = a ->
    nth_error ls j = Some lj ->
    nonempty (label lj) = true ->
    (forall i li, (i < j)%nat -> nth_error ls i = Some li ->
                  label li <> label lj) ->
    find_label (label lj) (label_table a ls)
    = Some (uint (a + 2 * Z.of_nat j)).
Proof.
  induction ls as [|l ls IH]; intros a j lj Ha Hj Hne Hfirst.
  - destruct j; discriminate.
  - destruct j as [|j]; cbn in Hj.
    + injection Hj as ->. cbn [label_table]. rewrite Hne.
      cbn [app find_label lname address].
      now rewrite String.eqb_refl, Z.add_0_r, Ha.
    + assert (Hrec : find_label (label lj) (label_table (uint (a + 2)) ls)
                     = Some (uint (a + 2 * Z.of_nat (S j)))).
      { rewrite (IH (uint (a + 2)) j lj (uint_idem _) Hj Hne).
        - rewrite uint_step. do 2 f_equal. lia.
        - intros i li Hi Hnth. apply (Hfirst (S i) li); [lia | exact Hnth]. }
      cbn [label_table]. destruct (nonempty (label l)); [|exact Hrec].
      cbn [app find_label lname address].
      destruct (String.eqb_spec (label lj) (label l)) as [E|_]; [|exact Hrec].
      exfalso. apply (Hfirst 0%nat l); [lia | reflexivity | now symmetry].
Qed.

(** X13. When a label is declared more than once, the first declaration
    wins: looking a name up gives the address of the first line after
    line 0 that carries it. *)
Theorem first_declaration_wins (lines : list LINE) (j : nat) (lj : LINE) :
  nth_error (skipn 1 lines) j = Some lj ->
  nonempty (label lj) = true ->
  (forall i li, (i < j)%nat -> nth_error (skipn 1 lines) i = Some li ->
                label li <> label lj) ->
  let base := set_address lines in
  find_label (label lj) (labels (pass1 base lines))
  = Some (uint (base + 2 * Z.of_nat j)).
Proof.
  intros Hj Hne Hfirst base. rewrite pass1_labels.
  apply find_label_first; try assumption. apply set_address_uint.
Qed.

Lemma first_declaration_wins_witness :
  find_label "L" (labels (pass1 (set_address duplicate_label_program)
                                duplicate_label_program))
  = Some 0.
Proof.
  apply (first_declaration_wins duplicate_label_program 0
           (mkLINE "L" "WB" "0x01")); try reflexivity.
  intros i li Hi. lia.
Defined.

(** ** [assemble]: the lines of the file *)

Section WrittenLines.

Variable tbl : list LABEL.

Lemma encode_line_none_iff (b : string) (a : Z) (l : LINE) :
  encode_line tbl b a l = None
  <-> is_branch (operation l) = true /\ labelFound (operand l) tbl = false.
Proof.
  unfold encode_line, labelFound.
  destruct (is_branch (operation l)) eqn:Eb.
  - destruct (is_branch_encoded _ Eb) as [_ ->].
    destruct (find_label (operand l) tbl); split; try discriminate; auto.
    intros [_ H]. discriminate.
  - destruct (addBoolean (get_opcode (operation l)));
      split; try discriminate; intros [H _]; discriminate.
Qed.

Variable behind : nat -> string.

Lemma emitted_length (ls : list LINE) :
  forall i a,
    List.length (emitted tbl behind i a ls)
    = List.length
        (filter (fun l => negb (is_branch (operation l))
                          || labelFound (operand l) tbl) ls).
Proof.
  induction ls as [|l ls IH]; intros i a; [reflexivity|].
  cbn [emitted filter]. rewrite length_app, IH.
  destruct (encode_line tbl (behind i) a l) eqn:E.
  - assert (Hk : negb (is_branch (operation l))
                 || labelFound (operand l) tbl = true).
    { destruct (is_branch (operation l)) eqn:Eb; [|reflexivity].
      destruct (labelFound (operand l) tbl) eqn:Ef; [reflexivity|].
      assert (encode_line tbl (behind i) a l = None)
        by (apply encode_line_none_iff; auto).
      congruence. }
    rewrite Hk. reflexivity.
  - apply encode_line_none_iff in E as [-> ->]. reflexivity.
Qed.

Lemma emitted_In (ls : list LINE) :
  forall i a o,
    uint a = a ->
    (In o (emitted tbl behind i a ls)
     <-> exists k l,
        nth_error ls k = Some l
        /\ encode_line tbl (behind (i + k)) (uint (a + 2 * Z.of_nat k)) l
           = Some o).
Proof.
  induction ls as [|x ls IH]; intros i a o Ha.
  - split; [contradiction|]. intros (k & l & H & _). destruct k; discriminate.
  - cbn [emitted].
    rewrite in_app_iff, (IH (S i) (uint (a + 2))) by apply uint_idem.
    split.
    + intros [H|(k & l & Hk & He)].
      * exists 0%nat, x. split; [reflexivity|].
        rewrite Z.add_0_r, Ha, Nat.add_0_r.
        destruct (encode_line tbl (behind i) a x); [|contradiction].
        destruct H as [<-|[]]. reflexivity.
      * exists (S k), l. split; [exact Hk|].
        rewrite uint_step in He.
        replace (i + S k)%nat with (S i + k)%nat by lia.
        now replace (Z.of_nat (S k)) with (Z.of_nat k + 1) by lia.
    + intros (k & l & Hk & He). destruct k as [|k]; cbn in Hk.
      * injection Hk as ->. left.
        rewrite Z.mul_0_r, Z.add_0_r, Ha, Nat.add_0_r in He.
        rewrite He. now left.
      * right. exists k, l. split; [exact Hk|].
        rewrite uint_step.
        replace (S i + k)%nat with (i + S k)%nat by lia.
        now replace (Z.of_nat k + 1) with (Z.of_nat (S k)) by lia.
Qed.

End WrittenLines.

(** X14. The file has one line for every line after line 0 except the
    branch instructions whose operand is not a declared label, for
    which nothing is written; so it never has more lines than the
    program has after line 0. *)
Theorem written_line_count (lines : list LINE) (behind : nat -> string)
    (writable : bool) (out : list out_line) :
  file (assemble (Some lines) behind writable) = Some out ->
  List.length out
  = List.length
      (filter (fun l => negb (is_branch (operation l))
                        || known lines (operand l)) (skipn 1 lines))
  /\ (List.length out <= List.length (skipn 1 lines))%nat.
Proof.
  intros H. apply assemble_file in H as [-> _].
  rewrite emitted_length.
  assert (E : filter (fun l => negb (is_branch (operation l))
                               || labelFound (operand l)
                                    (label_table (set_address lines)
                                                 (skipn 1 lines)))
                     (skipn 1 lines)
              = filter (fun l => negb (is_branch (operation l))
                                 || known lines (operand l))
                       (skipn 1 lines)).
  { apply filter_ext. intros l. now rewrite labelFound_table. }
  rewrite E. split; [reflexivity | apply filter_length_le].
Qed.

Lemma written_line_count_witness :
  List.length [ OutSplit 2 0x30 (SecondText 3 "0x01");
                OutSplit 4 0xF8 (SecondZero 5) ] = 2%nat.
Proof.
  apply (written_line_count dropped_branch_program no_stale_bytes true
           [ OutSplit 2 0x30 (SecondText 3 "0x01");
             OutSplit 4 0xF8 (SecondZero 5) ]).
  reflexivity.
Defined.

(** X15. Every line of the file is the encoding of a line of the
    program after line 0, with what the operand buffer of that line
    holds from offset 2 on, and carries that line's own address,
    [base + 2 * k] modulo [2 ^ 32] for line [k + 1]: a line that is not
    written does not shift the addresses of the lines after it. *)
Theorem written_line_origin (lines : list LINE) (behind : nat -> string)
    (writable : bool) (out : list out_line) (o : out_line) :
  file (assemble (Some lines) behind writable) = Some out ->
  In o out ->
  let base := set_address lines in
  exists k l,
    nth_error (skipn 1 lines) k = Some l
    /\ encode_line (labels (pass1 base lines)) (behind (S k))
                   (uint (base + 2 * Z.of_nat k)) l = Some o
    /\ out_addr o = uint (base + 2 * Z.of_nat k).
Proof.
  intros H Ho base. apply assemble_file in H as [-> _].
  rewrite pass1_labels.
  apply emitted_In in Ho as (k & l & Hk & He); [|apply set_address_uint].
  exists k, l. repeat split; try assumption.
  now apply encode_line_addr in He.
Qed.

Lemma written_line_origin_witness :
  exists k l,
    nth_error (skipn 1 dropped_branch_program) k = Some l
    /\ encode_line
         (labels (pass1 (set_address dropped_branch_program)
                        dropped_branch_program))
         (no_stale_bytes (S k))
         (uint (set_address dropped_branch_program + 2 * Z.of_nat k)) l
       = Some (OutSplit 2 0x30 (SecondText 3 "0x01"))
    /\ out_addr (OutSplit 2 0x30 (SecondText 3 "0x01"))
       = uint (set_address dropped_branch_program + 2 * Z.of_nat k).
Proof.
  apply (written_line_origin dropped_branch_program no_stale_bytes true
           [ OutSplit 2 0x30 (SecondText 3 "0x01");
             OutSplit 4 0xF8 (SecondZero 5) ]).
  - reflexivity.
  - now left.
Defined.

(** X16. In a written file, the text [Unknown Label: ... Writing opcode
    ...] stands only on the line of an instruction without encoded
    operand whose operand begins with [0x], is not a declared label and
    has a character other than a decimal digit after the prefix. *)
Theorem unknown_text_only_for_literals (lines : list LINE)
    (behind : nat -> string) (writable : bool)
    (out : list out_line) (a opc : Z) (s op : string) :
  file (assemble (Some lines) behind writable) = Some out ->
  In (OutSplit a opc (SecondUnknown s op)) out ->
  has_prefix "0x" s = true
  /\ nonempty (skip_digits (advance 2 s "")) = true
  /\ known lines s = false
  /\ exists l,
      In l (skipn 1 lines) /\ operand l = s /\ operation l = op
      /\ addBoolean (get_opcode op) = false.
Proof.
  intros Hfile Ho.
  assert (Hvalid : forall l, In l (skipn 1 lines) ->
                             unknown_operand lines l = false).
  { apply (proj1 (assemble_file_iff lines behind writable)). eauto. }
  apply assemble_file in Hfile as [-> _].
  apply emitted_In in Ho as (k & l & Hk & He); [|apply set_address_uint].
  apply nth_error_In in Hk. specialize (Hvalid l Hk).
  pose proof (labelFound_table lines (set_address lines) (operand l)) as Hk2.
  remember (label_table (set_address lines) (skipn 1 lines)) as tbl.
  remember (uint (set_address lines + 2 * Z.of_nat k)) as addr.
  unfold encode_line in He.
  destruct (addBoolean (get_opcode (operation l))) eqn:Eadd.
  { destruct (is_branch (operation l)); [|discriminate].
    destruct (find_label (operand l) tbl); discriminate. }
  assert (Hs : encode_second tbl addr l = SecondUnknown s op)
    by congruence.
  unfold encode_second in Hs. unfold labelFound in Hk2.
  destruct (find_label (operand l) tbl); [discriminate|].
  unfold unknown_operand in Hvalid. rewrite <- Hk2 in Hvalid.
  destruct (nonempty (operand l)); [|discriminate].
  destruct (has_prefix "0x" (operand l)) eqn:Ep; [|discriminate].
  destruct (nonempty (skip_digits (advance 2 (operand l) ""))) eqn:Ed;
    [|discriminate].
  cbn [negb andb] in Hs. injection Hs as <- <-.
  repeat split; try assumption; [now symmetry|].
  exists l. auto.
Qed.

Lemma unknown_text_only_for_literals_witness :
  has_prefix "0x" "0x0A" = true
  /\ nonempty (skip_digits (advance 2 "0x0A" "")) = true
  /\ known hex_letter_program "0x0A" = false
  /\ exists l,
      In l (skipn 1 hex_letter_program) /\ operand l = "0x0A"
      /\ operation l = "WB" /\ addBoolean (get_opcode "WB") = false.
Proof.
  apply (unknown_text_only_for_literals hex_letter_program no_stale_bytes true
           [ OutSplit 0 0x30 (SecondUnknown "0x0A" "WB");
             OutSplit 2 0xF8 (SecondZero 3) ] 0 0x30).
  - reflexivity.
  - now left.
Defined.

(** ** [assemble]: the two bytes of an encoded operand *)

Section Bytes.

Lemma to_int_mod (z : Z) : to_int z mod 2 ^ 32 = z mod 2 ^ 32.
Proof.
  unfold to_int. rewrite Zminus_mod_idemp_l. f_equal. lia.
Qed.

Lemma to_int_testbit (z n : Z) :
  0 <= n < 32 -> Z.testbit (to_int z) n = Z.testbit z n.
Proof.
  intros Hn.
  rewrite <- (Z.mod_pow2_bits_low (to_int z) 32 n) by lia.
  rewrite to_int_mod. apply Z.mod_pow2_bits_low. lia.
Qed.

Lemma byte_testbit_high (b n : Z) :
  0 <= b < 256 -> 8 <= n -> Z.testbit b n = false.
Proof.
  intros Hb Hn. rewrite <- (Z.mod_small b (2 ^ 8)) by lia.
  apply Z.mod_pow2_bits_high. lia.
Qed.

Lemma split_bytes (opc v : Z) :
  0 <= opc < 256 -> 0 <= v ->
  Z.land (Z.shiftr (to_int (Z.lor (Z.shiftl opc 8) v)) 8) 0xFF
  = Z.lor opc ((v / 256) mod 256)
  /\ Z.land (to_int (Z.lor (Z.shiftl opc 8) v)) 0xFF = v mod 256.
Proof.
  intros Hopc Hv.
  change 0xFF with (Z.ones 8). change 256 with (2 ^ 8).
  split; apply Z.bits_inj'; intros n Hn; rewrite Z.land_spec.
  - rewrite Z.shiftr_spec, Z.lor_spec by lia.
    destruct (Z.ltb_spec n 8) as [Hlt|Hge].
    + rewrite Z.ones_spec_low, andb_true_r by lia.
      rewrite to_int_testbit, Z.lor_spec, Z.shiftl_spec by lia.
      rewrite Z.mod_pow2_bits_low, Z.div_pow2_bits by lia.
      do 2 f_equal. lia.
    + rewrite Z.ones_spec_high, andb_false_r by lia.
      rewrite (byte_testbit_high opc n), Z.mod_pow2_bits_high by lia.
      reflexivity.
  - destruct (Z.ltb_spec n 8) as [Hlt|Hge].
    + rewrite Z.ones_spec_low, andb_true_r by lia.
      rewrite to_int_testbit, Z.lor_spec, Z.shiftl_spec by lia.
      rewrite Z.mod_pow2_bits_low, (Z.testbit_neg_r opc) by lia.
      reflexivity.
    + rewrite Z.ones_spec_high, andb_false_r by lia.
      rewrite Z.mod_pow2_bits_high by lia. reflexivity.
Qed.

Lemma digit_val_nonneg (c : ascii) (d : Z) : digit_val c = Some d -> 0 <= d.
Proof.
  unfold digit_val.
  destruct ((48 <=? Z.of_N (N_of_ascii c)) && (Z.of_N (N_of_ascii c) <=? 57))
    eqn:E1.
  - intros [= <-]. apply andb_prop in E1 as [E _]. lia.
  - destruct ((97 <=? Z.of_N (N_of_ascii c))
              && (Z.of_N (N_of_ascii c) <=? 122)) eqn:E2.
    + intros [= <-]. apply andb_prop in E2 as [E _]. lia.
    + destruct ((65 <=? Z.of_N (N_of_ascii c))
                && (Z.of_N (N_of_ascii c) <=? 90)) eqn:E3; [|discriminate].
      intros [= <-]. apply andb_prop in E3 as [E _]. lia.
Qed.

Lemma digits_nonneg (base : Z) (s : string) :
  0 <= base -> forall acc, 0 <= acc -> 0 <= digits base s acc.
Proof.
  intros Hb. induction s as [|c s IH]; intros acc Hacc; simpl; [exact Hacc|].
  destruct (digit_val c) as [d|] eqn:Ed; [|exact Hacc].
  destruct (d <? base); [|exact Hacc].
  apply IH. pose proof (digit_val_nonneg _ _ Ed). nia.
Qed.

Lemma strtoul16_range (s : string) : 0 <= strtoul16 s <= ULONG_MAX.
Proof.
  unfold strtoul16. destruct (take_sign (skip_space s)) as [neg s1].
  set (v := digits 16 _ 0).
  assert (Hv : 0 <= v) by (apply digits_nonneg; lia).
  unfold ULONG_MAX in *.
  destruct (Z.ltb_spec (2 ^ 64 - 1) v); [lia|].
  destruct neg; [|lia].
  pose proof (Z.mod_pos_bound (- v) (2 ^ 64)). lia.
Qed.

Lemma encoded_opcode_is_byte (m : string) :
  addBoolean (get_opcode m) = true -> 0 <= opcode (get_opcode m) < 256.
Proof.
  unfold get_opcode. split_on_mnemonic; simpl; intros H;
    try discriminate; lia.
Qed.

End Bytes.

Lemma encode_line_encoded_operand (tbl : list LABEL) (b : string) (a : Z)
    (l : LINE) :
  addBoolean (get_opcode (operation l)) = true ->
  is_branch (operation l) = false ->
  let v := strtoul16 (advance 2 (operand l) b) in
  let opc := opcode (get_opcode (operation l)) in
  encode_line tbl b a l
  = Some (OutWord a (Z.lor opc ((v / 256) mod 256)) (uint (a + 1))
                  (v mod 256))
  /\ (v < 256 ->
      encode_line tbl b a l = Some (OutWord a opc (uint (a + 1)) v)).
Proof.
  intros Hadd Hb v opc.
  pose proof (encoded_opcode_is_byte _ Hadd) as Hopc.
  pose proof (strtoul16_range (advance 2 (operand l) b)) as [Hv _].
  destruct (split_bytes opc v Hopc Hv) as [H1 H2].
  assert (E : encode_line tbl b a l
              = Some (OutWord a (Z.lor opc ((v / 256) mod 256))
                              (uint (a + 1)) (v mod 256))).
  { unfold encode_line. rewrite Hadd, Hb. fold v opc.
    now rewrite H1, H2. }
  split; [exact E|]. intros Hsmall. rewrite E.
  rewrite (Z.div_small v 256), Z.mod_0_l, Z.lor_0_r, Z.mod_small by lia.
  reflexivity.
Qed.

(** X17. For an instruction with encoded operand that is not a branch
    (WM, RM, WIO), with [v] the value that [strtoul] reads in base 16 at
    [operand + 2], that is behind the first two characters of the
    operand or, for an operand of fewer than two characters, in what
    the operand buffer holds from offset 2 on, the second byte written
    is the low byte of [v] and the first byte is the opcode or-ed with
    the next byte of [v]; when [v] fits a byte the line holds the
    opcode and [v]. *)
Theorem encoded_operand_bytes (tbl : list LABEL) (b : string) (a : Z)
    (l : LINE) :
  addBoolean (get_opcode (operation l)) = true ->
  is_branch (operation l) = false ->
  let v := strtoul16 (advance 2 (operand l) b) in
  let opc := opcode (get_opcode (operation l)) in
  encode_line tbl b a l
  = Some (OutWord a (Z.lor opc ((v / 256) mod 256)) (uint (a + 1))
                  (v mod 256))
  /\ (v < 256 ->
      encode_line tbl b a l = Some (OutWord a opc (uint (a + 1)) v)).
Proof. apply encode_line_encoded_operand. Qed.

(** An operand of four digits, one of two, and a missing operand on a
    buffer that still holds ["05"] from offset 2 on. *)
Lemma encoded_operand_bytes_witness :
  encode_line [] "" 0 (mkLINE "" "WM" "0x1234")
  = Some (OutWord 0 (Z.lor 0x08 0x12) 1 0x34)
  /\ encode_line [] "" 0 (mkLINE "" "WIO" "0x7f")
     = Some (OutWord 0 0x28 1 0x7F)
  /\ encode_line [] "05" 0 (mkLINE "" "WM" "") = Some (OutWord 0 0x08 1 5).
Proof.
  split; [|split].
  - apply (proj1 (encoded_operand_bytes [] "" 0 (mkLINE "" "WM" "0x1234")
                    eq_refl eq_refl)).
  - apply (proj2 (encoded_operand_bytes [] "" 0 (mkLINE "" "WIO" "0x7f")
                    eq_refl eq_refl)).
    reflexivity.
  - apply (proj2 (encoded_operand_bytes [] "05" 0 (mkLINE "" "WM" "")
                    eq_refl eq_refl)).
    reflexivity.
Defined.

(** X18. The base address, the addresses in the label table and the
    addresses on the lines of the file all lie in [0, 2^32). *)
Theorem addresses_in_range (lines : list LINE) :
  let base := set_address lines in
  0 <= base < 2 ^ 32
  /\ (forall lb, In lb (labels (pass1 base lines)) ->
                 0 <= address lb < 2 ^ 32)
  /\ (forall behind writable out o,
         file (assemble (Some lines) behind writable) = Some out ->
         In o out -> 0 <= out_addr o < 2 ^ 32).
Proof.
  intros base.
  assert (Hu : forall z, 0 <= uint z < 2 ^ 32)
    by (intros z; apply Z.mod_pos_bound; lia).
  split; [|split].
  - unfold base. rewrite <- set_address_uint. apply Hu.
  - intros lb Hlb. rewrite pass1_labels in Hlb.
    apply label_table_In in Hlb as (k & l & _ & _ & ->);
      [apply Hu | apply set_address_uint].
  - intros behind writable out o Hfile Ho.
    apply assemble_file in Hfile as [-> _].
    apply emitted_In in Ho as (k & l & _ & He); [|apply set_address_uint].
    apply encode_line_addr in He. rewrite He. apply Hu.
Qed.

Lemma addresses_in_range_witness :
  0 <= out_addr (OutSplit 4 248 (SecondZero 5)) < 2 ^ 32.
Proof.
  apply (proj2 (proj2 (addresses_in_range example_program))
               no_stale_bytes true
               [ OutSplit 0 48 (SecondText 1 "0x05");
                 OutWord 2 24 3 4; OutSplit 4 248 (SecondZero 5) ]).
  - reflexivity.
  - simpl. tauto.
Defined.

(** ** Numbers written in decimal and in hexadecimal *)

Section Numerals.

Ltac eval_digits :=
  repeat match goal with
         | |- context [digit_val ?c] =>
             let v := eval vm_compute in (digit_val c) in
             change (digit_val c) with v
         end.

Lemma digits_decimal_acc (d : Decimal.uint) :
  forall acc,
    digits 10 (DecimalString.NilEmpty.string_of_uint d) (Z.pos acc)
    = Z.pos (Pos.of_uint_acc d acc).
Proof.
  induction d; intros acc;
    cbn [DecimalString.NilEmpty.string_of_uint digits Pos.of_uint_acc];
    [reflexivity|..];
    eval_digits; cbn [Z.ltb Z.compare Pos.compare Pos.compare_cont];
    rewrite <- IHd; f_equal; lia.
Qed.

Lemma digits_decimal (d : Decimal.uint) :
  starts_nonzero d = true ->
  digits 10 (DecimalString.NilEmpty.string_of_uint d) 0 = Z.of_uint d.
Proof.
  unfold Z.of_uint.
  destruct d; try discriminate; intros _;
    cbn [DecimalString.NilEmpty.string_of_uint digits Pos.of_uint];
    eval_digits; cbn [Z.ltb Z.compare Pos.compare Pos.compare_cont Z.mul Z.add];
    apply digits_decimal_acc.
Qed.

Lemma hex_numeral_cons (c : ascii) (s : string) (d : Hexadecimal.uint) :
  hex_numeral (String c s) d ->
  exists d',
    hex_numeral s d'
    /\ HexadecimalString.uint_of_char (lower_hex_char c) (Some d') = Some d.
Proof.
  unfold hex_numeral. cbn [lower_hex HexadecimalString.NilEmpty.uint_of_string].
  destruct (HexadecimalString.NilEmpty.uint_of_string (lower_hex s))
    as [d'|]; [eauto|].
  intros H. destruct (lower_hex_char c) as [[] [] [] [] [] [] [] []];
    discriminate.
Qed.

Lemma digits_hex_numeral (s : string) :
  forall d,
    hex_numeral s d ->
    (forall acc, digits 16 s (Z.pos acc) = Z.pos (Pos.of_hex_uint_acc d acc))
    /\ digits 16 s 0 = Z.of_hex_uint d.
Proof.
  unfold Z.of_hex_uint.
  induction s as [|c s IH]; intros d H.
  - injection H as <-. split; reflexivity.
  - apply hex_numeral_cons in H as (d' & Hd' & Hc).
    destruct (IH d' Hd') as [IHacc IH0].
    destruct c as [[] [] [] [] [] [] [] []]; cbn in Hc; try discriminate;
      injection Hc as <-;
      (split; [intros acc|]);
      cbn [digits Pos.of_hex_uint_acc Pos.of_hex_uint]; eval_digits;
      cbn [Z.ltb Z.compare Pos.compare Pos.compare_cont Z.mul Z.add];
      first [ exact IH0
            | apply IHacc
            | rewrite <- IHacc; f_equal; lia ].
Qed.

Lemma hex_digit_shape (c : ascii) (d d' : Hexadecimal.uint) :
  HexadecimalString.uint_of_char (lower_hex_char c) (Some d') = Some d ->
  isspace c = false
  /\ (forall r, take_sign (String c r) = (false, String c r))
  /\ ("x" =? c)%char = false /\ ("X" =? c)%char = false.
Proof.
  destruct c as [[] [] [] [] [] [] [] []]; cbn; intros H;
    try discriminate H; repeat split.
Qed.

End Numerals.

Lemma strtol0_decimal (d : Decimal.uint) :
  starts_nonzero d = true ->
  Z.of_uint d <= LONG_MAX ->
  strtol0 (DecimalString.NilEmpty.string_of_uint d) = Z.of_uint d.
Proof.
  intros Hs Hmax. rewrite <- (digits_decimal d Hs) in *.
  set (s := DecimalString.NilEmpty.string_of_uint d) in *.
  assert (Hshape : skip_space s = s /\ take_sign s = (false, s)
                   /\ hex_prefixed s = false /\ has_prefix "0" s = false).
  { unfold s. destruct d; try discriminate; repeat split; reflexivity. }
  destruct Hshape as (H1 & H2 & H3 & H4).
  unfold strtol0. rewrite H1, H2, H3, H4.
  pose proof (digits_nonneg 10 s ltac:(lia) 0 ltac:(lia)) as Hpos.
  destruct (Z.ltb_spec LONG_MAX (digits 10 s 0)); [lia|].
  destruct (Z.ltb_spec (digits 10 s 0) LONG_MIN); [|reflexivity].
  unfold LONG_MIN in *. lia.
Qed.

Lemma strtol0_hex (s : string) (d : Hexadecimal.uint) :
  hex_numeral s d ->
  Z.of_hex_uint d <= LONG_MAX ->
  strtol0 ("0x" ++ s)%string = Z.of_hex_uint d.
Proof.
  intros Hnum Hmax. destruct (digits_hex_numeral s d Hnum) as [_ Hd].
  rewrite <- Hd in *.
  set (t := ("0x" ++ s)%string).
  assert (Hshape : skip_space t = t /\ take_sign t = (false, t)
                   /\ hex_prefixed t = true /\ advance 2 t "" = s)
    by (repeat split; reflexivity).
  destruct Hshape as (H1 & H2 & H3 & H4).
  unfold strtol0. rewrite H1, H2, H3, H4.
  pose proof (digits_nonneg 16 s ltac:(lia) 0 ltac:(lia)) as Hpos.
  destruct (Z.ltb_spec LONG_MAX (digits 16 s 0)); [lia|].
  destruct (Z.ltb_spec (digits 16 s 0) LONG_MIN); [|reflexivity].
  unfold LONG_MIN in *. lia.
Qed.

(** X19. An ORG line at the head of the program whose operation field
    is a decimal numeral without leading zero, or [0x] followed by a
    hexadecimal numeral with letters in either case, sets the base
    address to the number written, modulo [2 ^ 32], as long as the
    number fits a [long]. *)
Theorem org_numeral_sets_base (x : string) (rest : list LINE) :
  (forall d : Decimal.uint,
      starts_nonzero d = true ->
      Z.of_uint d <= LONG_MAX ->
      set_address
        (mkLINE "ORG" (DecimalString.NilEmpty.string_of_uint d) x :: rest)
      = Z.of_uint d mod 2 ^ 32)
  /\ (forall (s : string) (d : Hexadecimal.uint),
         hex_numeral s d ->
         Z.of_hex_uint d <= LONG_MAX ->
         set_address (mkLINE "ORG" ("0x" ++ s)%string x :: rest)
         = Z.of_hex_uint d mod 2 ^ 32).
Proof.
  split; intros; unfold set_address;
    cbn [set_address_loop label operation];
    change ("ORG" == "ORG") with true; cbv iota.
  - now rewrite strtol0_decimal.
  - now rewrite (strtol0_hex s d).
Qed.

Lemma org_numeral_sets_base_witness :
  set_address [ mkLINE "ORG" "4096" ""; mkLINE "" "EOP" "" ] = 4096
  /\ set_address [ mkLINE "ORG" "0x1F0" ""; mkLINE "" "EOP" "" ] = 496
  /\ set_address [ mkLINE "ORG" "0x1f0" ""; mkLINE "" "EOP" "" ] = 496.
Proof.
  split; [|split].
  - apply (proj1 (org_numeral_sets_base "" [ mkLINE "" "EOP" "" ])
                 (Decimal.D4 (Decimal.D0 (Decimal.D9
                   (Decimal.D6 Decimal.Nil)))));
      [reflexivity | vm_compute; discriminate].
  - apply (proj2 (org_numeral_sets_base "" [ mkLINE "" "EOP" "" ]) "1F0"
                 (Hexadecimal.D1 (Hexadecimal.Df
                   (Hexadecimal.D0 Hexadecimal.Nil))));
      [reflexivity | vm_compute; discriminate].
  - apply (proj2 (org_numeral_sets_base "" [ mkLINE "" "EOP" "" ]) "1f0"
                 (Hexadecimal.D1 (Hexadecimal.Df
                   (Hexadecimal.D0 Hexadecimal.Nil))));
      [reflexivity | vm_compute; discriminate].
Defined.

Lemma strtoul16_hex (s : string) (d : Hexadecimal.uint) :
  hex_numeral s d ->
  Z.of_hex_uint d <= ULONG_MAX ->
  strtoul16 s = Z.of_hex_uint d.
Proof.
  intros Hnum Hmax. destruct (digits_hex_numeral s d Hnum) as [_ Hd].
  rewrite <- Hd in *.
  assert (Hshape : skip_space s = s /\ take_sign s = (false, s)
                   /\ hex_prefixed s = false).
  { destruct s as [|c1 s1]; [repeat split; reflexivity|].
    apply hex_numeral_cons in Hnum as (d1 & Hs1 & Hc1).
    destruct (hex_digit_shape _ _ _ Hc1) as (Hsp & Hsign & _ & _).
    cbn [skip_space]. rewrite Hsp. repeat split; [apply Hsign|].
    unfold hex_prefixed. destruct s1 as [|c2 s2].
    - cbn [has_prefix]. now rewrite !andb_false_r.
    - apply hex_numeral_cons in Hs1 as (d2 & _ & Hc2).
      destruct (hex_digit_shape _ _ _ Hc2) as (_ & _ & Hx & HX).
      cbn [has_prefix]. now rewrite Hx, HX, !andb_false_r. }
  destruct Hshape as (H1 & H2 & H3).
  unfold strtoul16. rewrite H1, H2, H3.
  destruct (Z.ltb_spec ULONG_MAX (digits 16 s 0)); [lia | reflexivity].
Qed.

(** X20. For WM, RM and WIO, an operand written as [0x] followed by a
    hexadecimal numeral, with letters in either case, of value below
    256 comes out as the second byte of the line, behind the unchanged
    opcode. *)
Theorem encoded_hex_operand_round_trip (tbl : list LABEL) (b : string)
    (a : Z) (lab m s : string) (d : Hexadecimal.uint) :
  addBoolean (get_opcode m) = true ->
  is_branch m = false ->
  hex_numeral s d ->
  Z.of_hex_uint d < 256 ->
  encode_line tbl b a (mkLINE lab m ("0x" ++ s)%string)
  = Some (OutWord a (opcode (get_opcode m)) (uint (a + 1)) (Z.of_hex_uint d)).
Proof.
  intros Hadd Hb Hnum Hsmall.
  destruct (encode_line_encoded_operand tbl b a
              (mkLINE lab m ("0x" ++ s)%string) Hadd Hb) as [_ H].
  cbn [operand operation append advance] in H.
  rewrite (strtoul16_hex s d) in H by (try assumption; unfold ULONG_MAX; lia).
  now apply H.
Qed.

Lemma encoded_hex_operand_round_trip_witness :
  encode_line [] "" 6 (mkLINE "" "RM" "0xA5") = Some (OutWord 6 0x10 7 0xA5)
  /\ encode_line [] "" 6 (mkLINE "" "RM" "0xa5")
     = Some (OutWord 6 0x10 7 0xA5).
Proof.
  split.
  - apply (encoded_hex_operand_round_trip [] "" 6 "" "RM" "A5"
             (Hexadecimal.Da (Hexadecimal.D5 Hexadecimal.Nil)));
      reflexivity.
  - apply (encoded_hex_operand_round_trip [] "" 6 "" "RM" "a5"
             (Hexadecimal.Da (Hexadecimal.D5 Hexadecimal.Nil)));
      reflexivity.
Defined.

(** ** More on single lines *)

(** X21. On the line of a branch whose operand is in the label table,
    the second byte is the label's address, and the first byte is the
    opcode or-ed with the second byte of what [strtoul] reads, in base
    16, in the operand buffer from offset 2 on: behind the first two
    characters of the label's name, or, for a name of fewer than two
    characters, in the bytes [b] that an earlier content left there.
    It is the plain opcode when that value is below 256. *)
Theorem branch_first_byte (tbl : list LABEL) (b : string) (a target : Z)
    (l : LINE) :
  is_branch (operation l) = true ->
  find_label (operand l) tbl = Some target ->
  let v := strtoul16 (advance 2 (operand l) b) in
  let opc := opcode (get_opcode (operation l)) in
  encode_line tbl b a l
  = Some (OutWord a (Z.lor opc ((v / 256) mod 256)) (uint (a + 1)) target)
  /\ (v < 256 ->
      encode_line tbl b a l = Some (OutWord a opc (uint (a + 1)) target)).
Proof.
  intros Hb Hfind v opc.
  destruct (is_branch_encoded _ Hb) as [_ Hadd].
  pose proof (encoded_opcode_is_byte _ Hadd) as Hopc.
  pose proof (strtoul16_range (advance 2 (operand l) b)) as [Hv _].
  destruct (split_bytes opc v Hopc Hv) as [H1 _].
  assert (E : encode_line tbl b a l
              = Some (OutWord a (Z.lor opc ((v / 256) mod 256))
                              (uint (a + 1)) target)).
  { unfold encode_line. rewrite Hadd, Hb, Hfind. fold v opc.
    now rewrite H1. }
  split; [exact E|]. intros Hsmall. rewrite E.
  rewrite (Z.div_small v 256), Z.mod_0_l, Z.lor_0_r by lia.
  reflexivity.
Qed.

Lemma branch_first_byte_witness :
  encode_line [mkLABEL "ABCDEF" 8] "" 0 (mkLINE "" "BR" "ABCDEF")
  = Some (OutWord 0 (Z.lor 0x18 0xCD) 1 8)
  /\ encode_line [mkLABEL "END" 8] "" 0 (mkLINE "" "BR" "END")
     = Some (OutWord 0 0x18 1 8)
  /\ encode_line [mkLABEL "X" 0] "1234" 2 (mkLINE "" "BR" "X")
     = Some (OutWord 2 0x1a 3 0).
Proof.
  split; [|split].
  - apply (proj1 (branch_first_byte [mkLABEL "ABCDEF" 8] "" 0 8
                    (mkLINE "" "BR" "ABCDEF") eq_refl eq_refl)).
  - apply (proj2 (branch_first_byte [mkLABEL "END" 8] "" 0 8
                    (mkLINE "" "BR" "END") eq_refl eq_refl)).
    reflexivity.
  - apply (proj1 (branch_first_byte [mkLABEL "X" 0] "1234" 2 0
                    (mkLINE "" "BR" "X") eq_refl eq_refl)).
Defined.

Lemma format_correction_idempotent (l : LINE) :
  format_correction (format_correction l) = format_correction l.
Proof.
  unfold format_correction.
  destruct (nonempty (label l) && is_mnemonic_label (label l)) eqn:E.
  - reflexivity.
  - now rewrite E.
Qed.

Lemma filter_corrected_stable (xs : list LINE) :
  (forall x, In x xs -> format_correction x = x) ->
  filter has_field (map format_correction (filter has_field xs))
  = filter has_field xs.
Proof.
  induction xs as [|x xs IH]; intros H; [reflexivity|].
  cbn [filter]. destruct (has_field x) eqn:Ex.
  - cbn [map filter]. rewrite (H x) by now left. rewrite Ex.
    f_equal. apply IH. intros y Hy. apply H. now right.
  - apply IH. intros y Hy. apply H. now right.
Qed.

(** X22. What [process_file] returns is in normal form: applying the
    format correction and the removal of empty lines to it again
    changes nothing. *)
Theorem process_file_normal_form (chunks : list string) (init : nat -> LINE)
    (filename : string) (lines : list LINE) :
  fst (process_file (Some chunks) true init filename) = Some lines ->
  compact (map format_correction lines) = lines.
Proof.
  cbn [process_file negb fst]. intros [= <-].
  rewrite !compact_filter. apply filter_corrected_stable.
  intros x Hx. apply in_map_iff in Hx as (y & <- & _).
  apply format_correction_idempotent.
Qed.

Lemma process_file_normal_form_witness :
  compact (map format_correction
               [ mkLINE "ORG" "0" ""; mkLINE "" "EOP" "" ])
  = [ mkLINE "ORG" "0" ""; mkLINE "" "EOP" "" ].
Proof.
  apply (process_file_normal_form ["ORG 0"; ""; "EOP"] zeroed "script.asm").
  reflexivity.
Defined.

Lemma find_label_empty (a : Z) (ls : list LINE) :
  find_label "" (label_table a ls) = None.
Proof.
  pose proof (labelFound_names "" (label_table a ls)) as H.
  rewrite label_table_names in H. unfold labelFound in H.
  destruct (find_label "" (label_table a ls)); [|reflexivity].
  symmetry in H. apply existsb_exists in H as (n & Hn & E).
  apply filter_In in Hn as [_ Hn]. apply String.eqb_eq in E. subst n.
  discriminate.
Qed.

(** X23. The label table never holds an empty name, so an instruction
    without encoded operand and without operand always gets 0 as its
    second byte. *)
Theorem empty_operand_gives_zero (lines : list LINE) (b : string) (a : Z)
    (l : LINE) :
  addBoolean (get_opcode (operation l)) = false ->
  operand l = "" ->
  let base := set_address lines in
  find_label "" (labels (pass1 base lines)) = None
  /\ encode_line (labels (pass1 base lines)) b a l
     = Some (OutSplit a (opcode (get_opcode (operation l)))
                      (SecondZero (uint (a + 1)))).
Proof.
  intros Hadd Hop base. rewrite pass1_labels.
  pose proof (find_label_empty base (skipn 1 lines)) as Hnone.
  split; [exact Hnone|].
  unfold encode_line, encode_second. now rewrite Hadd, Hop, Hnone.
Qed.

Lemma empty_operand_gives_zero_witness :
  encode_line (labels (pass1 (set_address example_program) example_program))
              "" 4 (mkLINE "END" "EOP" "")
  = Some (OutSplit 4 0xF8 (SecondZero 5)).
Proof.
  apply (empty_operand_gives_zero example_program "" 4
           (mkLINE "END" "EOP" ""));
    reflexivity.
Defined.
